(** * Near-Earth objects: ingestion, entity model and serialization

    A shallow embedding of [extract.py], [models.py] and [write.py].

    Python values are embedded as the inductive [value]; a [str] is a
    Rocq [string] read as a sequence of code points below 256; a
    [float] is an IEEE 754 binary64 number in the representation of
    [SpecFloat]; exceptions are the constructors of [exn] and a
    computation that can raise returns a [result].  The entities live
    in a store addressed by object identity, and the serializers run
    in a state-and-exception monad over that store. *)

From Stdlib Require Import ZArith NArith List String Ascii Bool Lia.
From Stdlib Require Import SpecFloat DecimalString.
From stdpp Require Import base option gmap strings.
Import ListNotations.

Local Open Scope string_scope.
Local Open Scope Z_scope.

(** ** Exceptions and results *)

Inductive exn : Type :=
| KeyError (key : string)
| TypeError
| ValueError
| AttributeError
| OverflowError
| OSError.

Inductive result (A : Type) : Type :=
| Ok (a : A)
| Raise (e : exn).
Arguments Ok {A} a.
Arguments Raise {A} e.

Definition rbind {A B : Type} (r : result A) (k : A -> result B) : result B :=
  match r with
  | Ok a => k a
  | Raise e => Raise e
  end.

Declare Scope result_scope.
Delimit Scope result_scope with result.
Notation "'let*' x ':=' r 'in' k" :=
  (rbind r (fun x => k))
  (at level 10, x name, r at level 100, k at level 200)
  : result_scope.
Local Open Scope result_scope.

(** [[f(x) for x in l]]: the elements are evaluated in order and the
    first exception leaves the comprehension. *)
Fixpoint rmap {A B : Type} (f : A -> result B) (l : list A) : result (list B) :=
  match l with
  | [] => Ok []
  | x :: l' =>
      let* y := f x in
      let* ys := rmap f l' in
      Ok (y :: ys)
  end.

(** ** Characters *)

Definition code (c : ascii) : Z := Z.of_N (N_of_ascii c).
Definition chr (n : Z) : ascii := ascii_of_N (Z.to_N n).

Definition is_digit (c : ascii) : bool := (48 <=? code c) && (code c <=? 57).
Definition digit_val (c : ascii) : Z := code c - 48.

(** White space as [float] sees it: the ASCII white space of
    [Py_ISSPACE], and the two Latin-1 spaces (NEL and NBSP) that the
    conversion of a non-ASCII [str] turns into a blank. *)
Definition is_space (c : ascii) : bool :=
  ((9 <=? code c) && (code c <=? 13)) || (code c =? 32)
  || (code c =? 133) || (code c =? 160).

Definition lower (c : ascii) : ascii :=
  if (65 <=? code c) && (code c <=? 90) then chr (code c + 32) else c.

Fixpoint lower_str (s : string) : string :=
  match s with
  | EmptyString => EmptyString
  | String c s' => String (lower c) (lower_str s')
  end.

Definition str1 (c : ascii) : string := String c EmptyString.

Fixpoint repeat_str (s : string) (n : nat) : string :=
  match n with
  | O => EmptyString
  | S n' => s +:+ repeat_str s n'
  end.

Fixpoint rev_str (s : string) (acc : string) : string :=
  match s with
  | EmptyString => acc
  | String c s' => rev_str s' (String c acc)
  end.

Fixpoint contains_char (c : ascii) (s : string) : bool :=
  match s with
  | EmptyString => false
  | String d s' => Ascii.eqb c d || contains_char c s'
  end.

(** Decimal text of an integer, as [str(int)] gives it. *)
Definition str_of_N (n : N) : string := NilZero.string_of_uint (N.to_uint n).
Definition str_of_Z (z : Z) : string :=
  match z with
  | Zneg p => "-" +:+ str_of_N (Npos p)
  | _ => str_of_N (Z.to_N z)
  end.

(** ** Floats *)

Module PyFloat.

Definition float : Type := spec_float.

Definition prec : Z := 53.
Definition emax : Z := 1024.

Definition nan : float := S754_nan.
Definition eqb (x y : float) : bool := SFeqb x y.

(** The binary64 number nearest to [(-1)^neg * num / den], ties to
    even (the division of [SpecFloat] rounds once, from the exact
    quotient). *)
Definition of_ratio (neg : bool) (num den : positive) : float :=
  SFdiv prec emax (S754_finite neg num 0) (S754_finite false den 0).

(** The binary64 number nearest to [(-1)^neg * m * 10^e]. *)
Definition of_decimal (neg : bool) (m : Z) (e : Z) : float :=
  match m with
  | Zpos p =>
      if 0 <=? e then of_ratio neg (p * Z.to_pos (10 ^ e)) 1
      else of_ratio neg p (Z.to_pos (10 ^ (- e)))
  | _ => S754_zero neg
  end.

(** [float(n)] for an [int]: nearest, and [OverflowError] beyond the
    largest finite number. *)
Definition of_int (z : Z) : result float :=
  match binary_normalize prec emax z 0 false with
  | S754_infinity _ => Raise OverflowError
  | x => Ok x
  end.

(** *** [float(str)] *)

(** Underscores may only stand between two digits; they are removed
    before the number is read. *)
Fixpoint drop_underscores (prev : ascii) (s : string) : option string :=
  match s with
  | EmptyString =>
      if Ascii.eqb prev "_" then None else Some EmptyString
  | String c s' =>
      if Ascii.eqb c "_" then
        if is_digit prev then drop_underscores c s' else None
      else
        if Ascii.eqb prev "_" && negb (is_digit c) then None
        else option_map (String c) (drop_underscores c s')
  end.

Fixpoint lstrip (s : string) : string :=
  match s with
  | String c s' => if is_space c then lstrip s' else s
  | EmptyString => EmptyString
  end.

Definition strip (s : string) : string :=
  rev_str (lstrip (rev_str (lstrip s) "")) "".

(** Reads a run of digits: the number read so far, how many digits
    were read, and the rest of the text. *)
Fixpoint digits (s : string) (acc : Z) (n : Z) : Z * Z * string :=
  match s with
  | String c s' =>
      if is_digit c then digits s' (10 * acc + digit_val c) (n + 1)
      else (acc, n, s)
  | EmptyString => (acc, n, s)
  end.

Definition sign (s : string) : bool * string :=
  match s with
  | String "-" s' => (true, s')
  | String "+" s' => (false, s')
  | _ => (false, s)
  end.

(** The exponent part; the whole rest of the text has to be one. *)
Definition exponent (s : string) : option Z :=
  match s with
  | EmptyString => Some 0
  | String c s' =>
      if Ascii.eqb (lower c) "e" then
        let '(neg, s'') := sign s' in
        match digits s'' 0 0 with
        | (v, n, EmptyString) =>
            if 0 <? n then Some (if neg then - v else v) else None
        | _ => None
        end
      else None
  end.

(** A decimal literal without its sign: mantissa and power of ten. *)
Definition decimal (s : string) : option (Z * Z) :=
  let '(ip, ni, s1) := digits s 0 0 in
  let '(m, nf, s2) :=
    match s1 with
    | String "." s1' => let '(m, n, r) := digits s1' ip 0 in (m, n, r)
    | _ => (ip, 0, s1)
    end in
  if 0 <? ni + nf then
    match exponent s2 with
    | Some e => Some (m, e - nf)
    | None => None
    end
  else None.

Definition inf_or_nan (neg : bool) (s : string) : option float :=
  let l := lower_str s in
  if String.eqb l "inf" || String.eqb l "infinity" then Some (S754_infinity neg)
  else if String.eqb l "nan" then Some S754_nan
  else None.

Definition of_string (s : string) : result float :=
  match drop_underscores "000" s with
  | None => Raise ValueError
  | Some t =>
      let '(neg, u) := sign (strip t) in
      match decimal u with
      | Some (m, e) => Ok (of_decimal neg m e)
      | None =>
          match inf_or_nan neg u with
          | Some x => Ok x
          | None => Raise ValueError
          end
      end
  end.

(** *** [repr(float)] *)

Definition ndigits (n : Z) : Z := Z.of_nat (String.length (str_of_Z n)).

(** The exact value of a finite float, as a fraction. *)
Definition num (m : positive) (e : Z) : Z :=
  if 0 <=? e then Zpos m * 2 ^ e else Zpos m.
Definition den (e : Z) : Z :=
  if 0 <=? e then 1 else 2 ^ (- e).

(** The position of the decimal point: the [p] with
    [10^(p-1) <= n/d < 10^p], for a positive fraction that is not a
    negative power of ten. *)
Definition decpt (n d : Z) : Z :=
  if d <=? n then ndigits (n / d) else 1 - ndigits (d / n).

(** The decimal of [nd] significant digits that reads back as the
    float [S754_finite false m e], when there is one: of the two
    decimals of that length around the exact value, the nearer one
    that reads back, the even one on a tie. *)
Definition candidate (m : positive) (e : Z) (p : Z) (nd : Z) : option (Z * Z) :=
  let k := p - nd in
  let n := if k <? 0 then num m e * 10 ^ (- k) else num m e in
  let d := if k <? 0 then den e else den e * 10 ^ k in
  let lo := n / d in
  let r := n mod d in
  let back v := eqb (of_decimal false v k) (S754_finite false m e) in
  match back lo, back (lo + 1) with
  | true, true =>
      match 2 * r ?= d with
      | Lt => Some (lo, k)
      | Gt => Some (lo + 1, k)
      | Eq => Some (if Z.even lo then lo else lo + 1, k)
      end
  | true, false => Some (lo, k)
  | false, true => Some (lo + 1, k)
  | false, false => None
  end.

(** The shortest such decimal, tried from [nd] digits on. *)
Fixpoint shortest (fuel : nat) (m : positive) (e : Z) (p : Z) (nd : Z) : Z * Z :=
  match candidate m e p nd with
  | Some r => r
  | None =>
      match fuel with
      | O => (num m e * 10 ^ (17 - p) / den e, p - 17)
      | S fuel' => shortest fuel' m e p (nd + 1)
      end
  end.

Fixpoint drop_zeros (fuel : nat) (v k : Z) : Z * Z :=
  match fuel with
  | O => (v, k)
  | S fuel' =>
      if (v mod 10 =? 0) && negb (v =? 0) then drop_zeros fuel' (v / 10) (k + 1)
      else (v, k)
  end.

Definition pad_exponent (s : string) : string :=
  if (String.length s <? 2)%nat then "0" +:+ s else s.

(** The layout of [repr]: plain for a decimal point within
    [-4 < p <= 16], with an exponent otherwise. *)
Definition layout (ds : string) (p : Z) : string :=
  let n := Z.of_nat (String.length ds) in
  if (-4 <? p) && (p <=? 16) then
    if p <=? 0 then "0." +:+ repeat_str "0" (Z.to_nat (- p)) +:+ ds
    else if n <=? p then ds +:+ repeat_str "0" (Z.to_nat (p - n)) +:+ ".0"
    else substring 0 (Z.to_nat p) ds +:+ "." +:+
         substring (Z.to_nat p) (Z.to_nat (n - p)) ds
  else
    substring 0 1 ds +:+
    (if 1 <? n then "." +:+ substring 1 (Z.to_nat (n - 1)) ds else "") +:+
    "e" +:+ (if p - 1 <? 0 then "-" else "+") +:+ pad_exponent (str_of_Z (Z.abs (p - 1))).

Definition repr (x : float) : string :=
  match x with
  | S754_nan => "nan"
  | S754_infinity s => if s then "-inf" else "inf"
  | S754_zero s => if s then "-0.0" else "0.0"
  | S754_finite s m e =>
      let p := decpt (num m e) (den e) in
      let '(v, k) := shortest 16 m e p 1 in
      let '(v, k) := drop_zeros 17 v k in
      let ds := str_of_Z v in
      (if s then "-" else "") +:+ layout ds (Z.of_nat (String.length ds) + k)
  end.

End PyFloat.

(** ** Python values *)

#[local] Set Warnings "-register-all".

(** The values that the two input files and the entities' attributes
    hold: what [csv.reader] and [json.load] produce, and what
    [load_neos] puts in their place.  A [dict] of this kind has [str]
    keys, all different (it comes from a JSON object), and keeps
    insertion order. *)
Inductive value : Type :=
| VNone
| VBool (b : bool)
| VInt (z : Z)
| VFloat (x : PyFloat.float)
| VStr (s : string)
| VList (l : list value)
| VDict (d : list (string * value)).

(** [v == s] for a [str] literal [s]. *)
Definition eq_str (v : value) (s : string) : bool :=
  match v with
  | VStr t => String.eqb t s
  | _ => false
  end.

(** [v is None] *)
Definition is_None (v : value) : bool :=
  match v with
  | VNone => true
  | _ => false
  end.

(** The condition of [if v] / [x if v else y]. *)
Definition truthy (v : value) : bool :=
  match v with
  | VNone => false
  | VBool b => b
  | VInt z => negb (z =? 0)
  | VFloat x => negb (PyFloat.eqb x (S754_zero false))
  | VStr s => negb (String.eqb s "")
  | VList l => match l with [] => false | _ => true end
  | VDict d => match d with [] => false | _ => true end
  end.

(** [float(v)] *)
Definition py_float (v : value) : result PyFloat.float :=
  match v with
  | VFloat x => Ok x
  | VInt z => PyFloat.of_int z
  | VBool b => Ok (if b then PyFloat.of_decimal false 1 0 else S754_zero false)
  | VStr s => PyFloat.of_string s
  | VNone | VList _ | VDict _ => Raise TypeError
  end.

Definition hex_digit (n : Z) : ascii :=
  if n <? 10 then chr (48 + n) else chr (87 + n).

Definition hex2 (c : ascii) : string :=
  String (hex_digit (code c / 16)) (str1 (hex_digit (code c mod 16))).

Definition quote : ascii := chr 34.
Definition apostrophe : ascii := chr 39.
Definition backslash : ascii := chr 92.

Module PyStr.

(** [repr] of a [str]: in apostrophes, unless it has an apostrophe
    and no quote; the code points that are not printable escaped. *)
Definition printable (c : ascii) : bool :=
  ((32 <=? code c) && (code c <? 127))
  || ((161 <=? code c) && negb (code c =? 173)).

Definition escape (q : ascii) (c : ascii) : string :=
  if Ascii.eqb c q || Ascii.eqb c backslash then String backslash (str1 c)
  else if code c =? 9 then String backslash "t"
  else if code c =? 10 then String backslash "n"
  else if code c =? 13 then String backslash "r"
  else if printable c then str1 c
  else String backslash ("x" +:+ hex2 c).

Fixpoint escape_all (q : ascii) (s : string) : string :=
  match s with
  | EmptyString => EmptyString
  | String c s' => escape q c +:+ escape_all q s'
  end.

Definition repr (s : string) : string :=
  let q := if contains_char apostrophe s && negb (contains_char quote s)
           then quote else apostrophe in
  String q (escape_all q s) +:+ str1 q.

End PyStr.

Fixpoint join (sep : string) (l : list string) : string :=
  match l with
  | [] => ""
  | [x] => x
  | x :: l' => x +:+ sep +:+ join sep l'
  end.

(** [repr(v)] *)
Fixpoint py_repr (v : value) : string :=
  match v with
  | VNone => "None"
  | VBool b => if b then "True" else "False"
  | VInt z => str_of_Z z
  | VFloat x => PyFloat.repr x
  | VStr s => PyStr.repr s
  | VList l => "[" +:+ join ", " (map py_repr l) +:+ "]"
  | VDict d =>
      "{" +:+ join ", " (map (fun kv => PyStr.repr (fst kv) +:+ ": " +:+ py_repr (snd kv)) d)
      +:+ "}"
  end.

(** [str(v)] *)
Definition py_str (v : value) : string :=
  match v with
  | VStr s => s
  | _ => py_repr v
  end.

(** ** [format(v, '.Nf')] *)

Module PyFormat.

(** [zfill]: zeros in front, up to [n] characters. *)
Definition zfill (n : nat) (s : string) : string :=
  repeat_str "0" (n - String.length s) +:+ s.

(** The fraction [n/d] to the nearest integer, ties to even. *)
Definition round_half_even (n d : Z) : Z :=
  let q := n / d in
  match 2 * (n mod d) ?= d with
  | Lt => q
  | Gt => q + 1
  | Eq => if Z.even q then q else q + 1
  end.

(** The fixed-point text of a float with [prec] digits after the
    point: the exact value rounded once, ties to even. *)
Definition fixed (prec : nat) (x : PyFloat.float) : string :=
  match x with
  | S754_nan => "nan"
  | S754_infinity s => if s then "-inf" else "inf"
  | S754_zero s =>
      (if s then "-" else "") +:+ "0"
      +:+ (if (0 <? prec)%nat then "." +:+ repeat_str "0" prec else "")
  | S754_finite s m e =>
      let q := round_half_even (PyFloat.num m e * 10 ^ Z.of_nat prec) (PyFloat.den e) in
      let ds := zfill (S prec) (str_of_Z q) in
      let ilen := (String.length ds - prec)%nat in
      (if s then "-" else "") +:+ substring 0 ilen ds
      +:+ (if (0 <? prec)%nat then "." +:+ substring ilen prec ds else "")
  end.

(** [format(v, '.Nf')]: a float is formatted, an [int] (a [bool] is
    one) through its float; a [str] does not know the code [f], and
    the other values take no format at all. *)
Definition format_f (prec : nat) (v : value) : result string :=
  match v with
  | VFloat x => Ok (fixed prec x)
  | VInt z => rbind (PyFloat.of_int z) (fun x => Ok (fixed prec x))
  | VBool b => Ok (fixed prec (if b then PyFloat.of_decimal false 1 0 else S754_zero false))
  | VStr _ => Raise ValueError
  | VNone | VList _ | VDict _ => Raise TypeError
  end.

End PyFormat.

(** ** [json.dump(data, f, indent=2, default=str)] *)

Module Json.

(** The text of a [str], with [ensure_ascii] on. *)
Definition escape (c : ascii) : string :=
  if Ascii.eqb c quote || Ascii.eqb c backslash then String backslash (str1 c)
  else if code c =? 10 then String backslash "n"
  else if code c =? 13 then String backslash "r"
  else if code c =? 9 then String backslash "t"
  else if code c =? 8 then String backslash "b"
  else if code c =? 12 then String backslash "f"
  else if (32 <=? code c) && (code c <? 127) then str1 c
  else String backslash ("u00" +:+ hex2 c).

Fixpoint escape_all (s : string) : string :=
  match s with
  | EmptyString => EmptyString
  | String c s' => escape c +:+ escape_all s'
  end.

Definition encode_str (s : string) : string :=
  String quote (escape_all s) +:+ str1 quote.

Definition encode_float (x : PyFloat.float) : string :=
  match x with
  | S754_nan => "NaN"
  | S754_infinity s => if s then "-Infinity" else "Infinity"
  | _ => PyFloat.repr x
  end.

Definition newline : string := str1 (chr 10).

(** A line break and the indentation of nesting depth [level]. *)
Definition newline_indent (level : nat) : string :=
  newline +:+ repeat_str "  " level.

(** Every value of [value] is one the encoder writes by itself, so
    the [default] hook is never called. *)
Fixpoint encode (level : nat) (v : value) : string :=
  match v with
  | VNone => "null"
  | VBool b => if b then "true" else "false"
  | VInt z => str_of_Z z
  | VFloat x => encode_float x
  | VStr s => encode_str s
  | VList [] => "[]"
  | VList l =>
      "[" +:+ newline_indent (S level)
      +:+ join ("," +:+ newline_indent (S level)) (map (encode (S level)) l)
      +:+ newline_indent level +:+ "]"
  | VDict [] => "{}"
  | VDict d =>
      "{" +:+ newline_indent (S level)
      +:+ join ("," +:+ newline_indent (S level))
            (map (fun kv => encode_str (fst kv) +:+ ": " +:+ encode (S level) (snd kv)) d)
      +:+ newline_indent level +:+ "}"
  end.

Definition dumps (v : value) : string := encode 0 v.

End Json.

(** ** [csv.writer] with the default dialect *)

Module Csv.

(** The text of a field: [None] is empty, a [str] is itself,
    anything else goes through [str]. *)
Definition field_text (v : value) : string :=
  match v with
  | VNone => ""
  | _ => py_str v
  end.

(** A field is quoted when it has the delimiter, a quote or a
    character of the line terminator. *)
Definition special (c : ascii) : bool :=
  Ascii.eqb c "," || Ascii.eqb c quote || (code c =? 13) || (code c =? 10).

Fixpoint needs_quotes (s : string) : bool :=
  match s with
  | EmptyString => false
  | String c s' => special c || needs_quotes s'
  end.

(** Quotes inside a field are doubled. *)
Fixpoint double_quotes (s : string) : string :=
  match s with
  | EmptyString => EmptyString
  | String c s' =>
      if Ascii.eqb c quote then String quote (String quote (double_quotes s'))
      else String c (double_quotes s')
  end.

Definition field (v : value) : string :=
  let s := field_text v in
  if needs_quotes s then String quote (double_quotes s) +:+ str1 quote
  else s.

Definition lineterminator : string := String (chr 13) (str1 (chr 10)).

(** The text that [writerow] hands to the file; a record of one
    empty field is written as a pair of quotes. *)
Definition row_text (row : list value) : string :=
  let r := join "," (map field row) in
  (match row with
   | _ :: _ => if String.eqb r "" then String quote (str1 quote) else r
   | [] => r
   end) +:+ lineterminator.

End Csv.

(** ** Calendar date-times ([helpers.py]) *)

(** A [datetime.datetime] without time zone. *)
Record datetime : Type := mkdatetime {
  year : Z;
  month : Z;
  day : Z;
  hour : Z;
  minute : Z;
  second : Z;
  microsecond : Z
}.

Definition is_leap (y : Z) : bool :=
  (y mod 4 =? 0) && (negb (y mod 100 =? 0) || (y mod 400 =? 0)).

Definition days_in_month (y m : Z) : Z :=
  if m =? 2 then (if is_leap y then 29 else 28)
  else if (m =? 4) || (m =? 6) || (m =? 9) || (m =? 11) then 30
  else 31.

(** The date-times that exist. *)
Definition valid_datetime (dt : datetime) : bool :=
  (1 <=? year dt) && (year dt <=? 9999)
  && (1 <=? month dt) && (month dt <=? 12)
  && (1 <=? day dt) && (day dt <=? days_in_month (year dt) (month dt))
  && (0 <=? hour dt) && (hour dt <=? 23)
  && (0 <=? minute dt) && (minute dt <=? 59)
  && (0 <=? second dt) && (second dt <=? 59)
  && (0 <=? microsecond dt) && (microsecond dt <=? 999999).

(** Minute precision: nothing below the minute. *)
Definition minute_precision (dt : datetime) : bool :=
  (second dt =? 0) && (microsecond dt =? 0).

Definition month_abbr (m : Z) : string :=
  match m with
  | 1 => "Jan" | 2 => "Feb" | 3 => "Mar" | 4 => "Apr"
  | 5 => "May" | 6 => "Jun" | 7 => "Jul" | 8 => "Aug"
  | 9 => "Sep" | 10 => "Oct" | 11 => "Nov" | 12 => "Dec"
  | _ => ""
  end.

Definition month_of_abbr (s : string) : option Z :=
  find (fun m => String.eqb (month_abbr m) s) [1; 2; 3; 4; 5; 6; 7; 8; 9; 10; 11; 12].

Definition digit_char (d : Z) : ascii := chr (48 + d).

Definition pad2 (n : Z) : string :=
  String (digit_char (n / 10 mod 10)) (str1 (digit_char (n mod 10))).

Definition pad4 (n : Z) : string :=
  String (digit_char (n / 1000 mod 10)) (String (digit_char (n / 100 mod 10)) (pad2 n)).

(** A text of digits only, as a number. *)
Fixpoint number (s : string) (acc : Z) : option Z :=
  match s with
  | EmptyString => Some acc
  | String c s' => if is_digit c then number s' (10 * acc + digit_val c) else None
  end.

Definition char_at (n : nat) (s : string) (c : ascii) : bool :=
  match String.get n s with
  | Some d => Ascii.eqb c d
  | None => false
  end.

(** Modelled from the spec: [helpers.datetime_to_str], which is not
    among the sources.  It renders a date-time in the compact layout
    [YYYY-Mon-DD HH:MM], with the English month abbreviations whatever
    the locale, and drops what is below the minute. *)
Definition datetime_to_str (dt : datetime) : string :=
  pad4 (year dt) +:+ String "-" (month_abbr (month dt)) +:+ String "-" (pad2 (day dt))
  +:+ String " " (pad2 (hour dt)) +:+ String ":" (pad2 (minute dt)).

(** The seconds that a source text may carry after the minutes: they
    are accepted and ignored. *)
Definition seconds_part (s : string) : bool :=
  match s with
  | EmptyString => true
  | String c s' =>
      Ascii.eqb c ":" && (String.length s' =? 2)%nat
      && match number s' 0 with Some _ => true | None => false end
  end.

Definition parse_cd (s : string) : option datetime :=
  match number (substring 0 4 s) 0, month_of_abbr (substring 5 3 s),
        number (substring 9 2 s) 0, number (substring 12 2 s) 0,
        number (substring 15 2 s) 0 with
  | Some y, Some mo, Some d, Some h, Some mi =>
      let dt := mkdatetime y mo d h mi 0 0 in
      if (17 <=? String.length s)%nat
         && char_at 4 s "-" && char_at 8 s "-" && char_at 11 s " " && char_at 14 s ":"
         && seconds_part (substring 17 (String.length s - 17) s)
         && valid_datetime dt
      then Some dt else None
  | _, _, _, _, _ => None
  end.

(** Modelled from the spec: [helpers.cd_to_datetime], which is not
    among the sources.  It reads the compact layout
    [YYYY-Mon-DD HH:MM] into a date-time of minute precision; a text
    that is not of that layout, or names no existing date-time, is a
    [ValueError], and what is not a [str] a [TypeError]. *)
Definition cd_to_datetime (v : value) : result datetime :=
  match v with
  | VStr s =>
      match parse_cd s with
      | Some dt => Ok dt
      | None => Raise ValueError
      end
  | _ => Raise TypeError
  end.

(** ** The entity model ([models.py]) *)

(** The identity of an object in the store. *)
Definition loc : Type := positive.

(** A [dict] that lives inside one call, as the log of its
    assignments, newest first: reading a [str] key returns the newest
    binding of that key (a key that is not a [str] never equals
    one). *)
Definition pydict : Type := list (value * value).

Definition setitem (k v : value) (d : pydict) : pydict := (k, v) :: d.

Fixpoint lookup_str (k : string) (d : pydict) : option value :=
  match d with
  | [] => None
  | (k', v) :: d' => if eq_str k' k then Some v else lookup_str k d'
  end.

(** [d[k]] *)
Definition getitem (k : string) (d : pydict) : result value :=
  match lookup_str k d with
  | Some v => Ok v
  | None => Raise (KeyError k)
  end.

Record NearEarthObject : Type := mkNearEarthObject {
  designation : value;
  name : value;
  diameter : value;
  hazardous : value;
  info : pydict;
  approaches : list loc
}.

(** [NearEarthObject.__init__], called without excess keywords. *)
Definition new_NearEarthObject (designation name diameter hazardous : value)
  : NearEarthObject :=
  {| designation := designation;
     name := name;
     diameter := diameter;
     hazardous := hazardous;
     info := [];
     approaches := [] |}.

(** [a + b] where one of the two is known to be a [str]: the
    concatenation of two [str]s, a [TypeError] for anything else. *)
Definition py_add (a b : value) : result value :=
  match a, b with
  | VStr s, VStr t => Ok (VStr (s +:+ t))
  | _, _ => Raise TypeError
  end.

(** The right-hand side of the assignment in [fullname]. *)
Definition fullname_value (self : NearEarthObject) : result value :=
  let* d_ := py_add (designation self) (VStr "_") in
  py_add d_ (name self).

(** The property [fullname].  It has no setter, so the assignment to
    [self.fullname] raises [AttributeError] and the [return] is never
    reached. *)
Definition fullname (self : NearEarthObject) : result value :=
  let* _v := fullname_value self in
  Raise AttributeError.

Record CloseApproach : Type := mkCloseApproach {
  _designation : value;
  time : datetime;
  distance : value;
  velocity : value;
  ca_info : pydict;
  neo : option loc
}.

(** [CloseApproach.__init__], called without excess keywords. *)
Definition new_CloseApproach (time distance velocity designation : value)
    (neo : option loc) : result CloseApproach :=
  let* t := cd_to_datetime time in
  Ok {| _designation := designation;
        time := t;
        distance := distance;
        velocity := velocity;
        ca_info := [];
        neo := neo |}.

(** The property [time_str]. *)
Definition time_str (self : CloseApproach) : string :=
  datetime_to_str (time self).

(** [NearEarthObject.__str__] *)
Definition NearEarthObject__str__ (self : NearEarthObject) : result string :=
  let* d := PyFormat.format_f 3 (diameter self) in
  Ok ("A NearEarthObject named " +:+ py_str (name self)
      +:+ " with a diameter=" +:+ d
      +:+ " moves to " +:+ py_str (designation self)
      +:+ " and is "
      +:+ (if truthy (hazardous self) then "hazardous." else "not hazardous.")).

(** [NearEarthObject.__repr__] *)
Definition NearEarthObject__repr__ (self : NearEarthObject) : result string :=
  let* d := PyFormat.format_f 3 (diameter self) in
  Ok ("NearEarthObject(designation=" +:+ py_repr (designation self)
      +:+ ", name=" +:+ py_repr (name self)
      +:+ ", diameter=" +:+ d
      +:+ ", hazardous=" +:+ py_repr (hazardous self) +:+ ")").

(** [CloseApproach.__str__] *)
Definition CloseApproach__str__ (self : CloseApproach) : result string :=
  let* d := PyFormat.format_f 2 (distance self) in
  let* v := PyFormat.format_f 2 (velocity self) in
  Ok ("A CloseApproach with designation '" +:+ py_str (_designation self)
      +:+ "' approaches Earth at a distance of " +:+ d
      +:+ " au and a velocity of " +:+ v
      +:+ " km/s at " +:+ time_str self +:+ " UTC.").

(** [repr(self.neo)], where [referent] is the object that [self.neo]
    refers to, and [None] when [self.neo] is [None]. *)
Definition repr_neo (referent : option NearEarthObject) : result string :=
  match referent with
  | Some o => NearEarthObject__repr__ o
  | None => Ok "None"
  end.

(** [CloseApproach.__repr__] *)
Definition CloseApproach__repr__ (self : CloseApproach)
    (referent : option NearEarthObject) : result string :=
  let* d := PyFormat.format_f 2 (distance self) in
  let* v := PyFormat.format_f 2 (velocity self) in
  let* n := repr_neo referent in
  Ok ("CloseApproach(time=" +:+ PyStr.repr (time_str self)
      +:+ ", distance=" +:+ d
      +:+ ", velocity=" +:+ v
      +:+ ", neo=" +:+ n +:+ ")").

(** ** Ingestion ([extract.py]) *)

(** [csv.DictReader] over the rows that [csv.reader] yields for the
    file: the first row names the fields, an empty row is skipped, a
    long row leaves its excess under the key [None] and a short one
    gets [None] for the fields it lacks. *)
Definition row_dict (fieldnames row : list string) : pydict :=
  let d := rev (combine (map VStr fieldnames) (map VStr row)) in
  let lf := length fieldnames in
  let lr := length row in
  if (lf <? lr)%nat then setitem VNone (VList (map VStr (skipn lf row))) d
  else fold_left (fun d key => setitem (VStr key) VNone d) (skipn lr fieldnames) d.

Definition is_empty_row (row : list string) : bool :=
  match row with
  | [] => true
  | _ => false
  end.

Definition DictReader (rows : list (list string)) : list pydict :=
  match rows with
  | [] => []
  | fieldnames :: data =>
      map (row_dict fieldnames) (filter (fun r => negb (is_empty_row r)) data)
  end.

(** The body of the [for] loop of [load_neos]. *)
Definition normalize (elem : pydict) : result pydict :=
  let* pha := getitem "pha" elem in
  let elem :=
    if eq_str pha "Y" then setitem (VStr "pha") (VBool true) elem
    else setitem (VStr "pha") (VBool false) elem in
  let* nm := getitem "name" elem in
  let elem := if eq_str nm "" then setitem (VStr "name") VNone elem else elem in
  let* dia := getitem "diameter" elem in
  let elem :=
    if eq_str dia "" then setitem (VStr "diameter") (VFloat PyFloat.nan) elem
    else elem in
  Ok elem.

(** The element of the comprehension that [load_neos] returns. *)
Definition neo_of_dict (neo : pydict) : result NearEarthObject :=
  let* pdes := getitem "pdes" neo in
  let* nm := getitem "name" neo in
  let* dia := getitem "diameter" neo in
  let* x := py_float dia in
  let* pha := getitem "pha" neo in
  Ok (new_NearEarthObject pdes nm (VFloat x) pha).

(** [load_neos], from the rows of the opened file on. *)
Definition load_neos (rows : list (list string)) : result (list NearEarthObject) :=
  let* collection_of_neo := rmap normalize (DictReader rows) in
  rmap neo_of_dict collection_of_neo.

(** [v[k]] for a [str] key: only a [dict] has one. *)
Definition subscript (v : value) (k : string) : result value :=
  match v with
  | VDict d =>
      match find (fun kv => String.eqb (fst kv) k) d with
      | Some kv => Ok (snd kv)
      | None => Raise (KeyError k)
      end
  | _ => Raise TypeError
  end.

Fixpoint chars (s : string) : list value :=
  match s with
  | EmptyString => []
  | String c s' => VStr (str1 c) :: chars s'
  end.

(** What iterating over a value yields. *)
Definition iterate (v : value) : result (list value) :=
  match v with
  | VList l => Ok l
  | VStr s => Ok (chars s)
  | VDict d => Ok (map (fun kv => VStr (fst kv)) d)
  | VNone | VBool _ | VInt _ | VFloat _ => Raise TypeError
  end.

Definition hashable (v : value) : bool :=
  match v with
  | VList _ | VDict _ => false
  | _ => true
  end.

(** [dict(zip(fields, ca))]: [zip] stops with the shorter of the two,
    and a key has to be hashable. *)
Definition zip_dict (fields ca : value) : result pydict :=
  let* ks := iterate fields in
  let* vs := iterate ca in
  let kvs := combine ks vs in
  if forallb (fun kv => hashable (fst kv)) kvs then Ok (rev kvs)
  else Raise TypeError.

(** The element of the comprehension that [load_approaches] returns. *)
Definition approach_of_dict (ca : pydict) : result CloseApproach :=
  let* cd := getitem "cd" ca in
  let* dist0 := getitem "dist" ca in
  let* dist := py_float dist0 in
  let* v_rel0 := getitem "v_rel" ca in
  let* v_rel := py_float v_rel0 in
  let* des := getitem "des" ca in
  new_CloseApproach cd (VFloat dist) (VFloat v_rel) des None.

(** [load_approaches], from the document that [json.load] returns
    on. *)
Definition load_approaches (content : value) : result (list CloseApproach) :=
  let* fields := subscript content "fields" in
  let* data := subscript content "data" in
  let* rows := iterate data in
  let* collection_of_ca := rmap (zip_dict fields) rows in
  rmap approach_of_dict collection_of_ca.

(** ** The store and the monad of the serializers *)

(** An iterable under observation: what it has still to yield, and
    how often [iter] and [next] were called on it. *)
Record Iterable : Type := mkIterable {
  pending : list loc;
  iter_calls : nat;
  next_calls : nat
}.

(** The objects by identity, the files by path, and the paths that
    cannot be opened for writing. *)
Record World : Type := mkWorld {
  neo_heap : gmap loc NearEarthObject;
  ca_heap : gmap loc CloseApproach;
  iter_heap : gmap loc Iterable;
  files : gmap string string;
  denied : gset string
}.

Definition set_files (f : gmap string string) (w : World) : World :=
  {| neo_heap := neo_heap w; ca_heap := ca_heap w; iter_heap := iter_heap w;
     files := f; denied := denied w |}.

Definition set_iter_heap (h : gmap loc Iterable) (w : World) : World :=
  {| neo_heap := neo_heap w; ca_heap := ca_heap w; iter_heap := h;
     files := files w; denied := denied w |}.

(** A computation reads and changes the world and returns or raises;
    what it did before raising stays done. *)
Definition M (A : Type) : Type := World -> result A * World.

Definition ret {A : Type} (a : A) : M A := fun w => (Ok a, w).

Definition bind {A B : Type} (m : M A) (k : A -> M B) : M B :=
  fun w =>
    match m w with
    | (Ok a, w') => k a w'
    | (Raise e, w') => (Raise e, w')
    end.

Declare Scope world_scope.
Delimit Scope world_scope with world.
Notation "'let!' x ':=' m 'in' k" :=
  (bind m (fun x => k))
  (at level 10, x name, m at level 100, k at level 200)
  : world_scope.
Local Open Scope world_scope.

(** [open(filename, 'w')]: the file is created or emptied. *)
Definition open_w (filename : string) : M unit :=
  fun w =>
    if decide (filename ∈ denied w) then (Raise OSError, w)
    else (Ok tt, set_files (<[filename := ""]> (files w)) w).

(** [f.write(s)] on the file opened at [filename]. *)
Definition write (filename : string) (s : string) : M unit :=
  fun w =>
    (Ok tt, set_files (<[filename := default "" (files w !! filename) +:+ s]> (files w)) w).

(** Reading an attribute of [c] that every [CloseApproach] has. *)
Definition get_ca (c : loc) : M CloseApproach :=
  fun w =>
    match ca_heap w !! c with
    | Some ca => (Ok ca, w)
    | None => (Raise AttributeError, w)
    end.

(** Reading an attribute of [ca.neo] that every [NearEarthObject]
    has; [None] has none of them. *)
Definition get_neo (r : option loc) : M NearEarthObject :=
  fun w =>
    match r with
    | Some l =>
        match neo_heap w !! l with
        | Some o => (Ok o, w)
        | None => (Raise AttributeError, w)
        end
    | None => (Raise AttributeError, w)
    end.

Definition put_iter (it : loc) (i : Iterable) : M unit :=
  fun w => (Ok tt, set_iter_heap (<[it := i]> (iter_heap w)) w).

Definition after_next (i : Iterable) (rest : list loc) : Iterable :=
  {| pending := rest; iter_calls := iter_calls i; next_calls := S (next_calls i) |}.

(** The passes of a [for] loop over [items], the pending elements of
    the iterable [it] whose state is [i]: each pass is a [next] and
    the body, and a last [next] ends the loop.  The results of the
    body are collected.  The body does not advance [it] itself. *)
Fixpoint for_items {B : Type} (it : loc) (i : Iterable) (items : list loc)
    (body : loc -> M B) : M (list B) :=
  match items with
  | [] =>
      let! _ := put_iter it (after_next i []) in
      ret []
  | c :: rest =>
      let! _ := put_iter it (after_next i rest) in
      let! b := body c in
      let! bs := for_items it (after_next i rest) rest body in
      ret (b :: bs)
  end.

(** [for c in it: body]; what is not iterable is a [TypeError]. *)
Definition for_in {B : Type} (it : loc) (body : loc -> M B) : M (list B) :=
  fun w =>
    match iter_heap w !! it with
    | None => (Raise TypeError, w)
    | Some i =>
        let i0 := {| pending := pending i; iter_calls := S (iter_calls i);
                     next_calls := next_calls i |} in
        (let! _ := put_iter it i0 in for_items it i0 (pending i) body) w
    end.

(** ** Serialization ([write.py]) *)

Definition fieldnames : list value :=
  [VStr "datetime_utc"; VStr "distance_au"; VStr "velocity_km_s";
   VStr "designation"; VStr "name"; VStr "diameter_km"; VStr "potentially_hazardous"].

(** The tuple [row] of [write_to_csv]. *)
Definition csv_row (ca : CloseApproach) (o : NearEarthObject) : list value :=
  [VStr (datetime_to_str (time ca));
   distance ca;
   velocity ca;
   designation o;
   if is_None (name o) then VStr "" else name o;
   if is_None (diameter o) then VStr "" else diameter o;
   if truthy (hazardous o) then VStr "True" else VStr "False"].

(** The body of the loop of [write_to_csv], for the approach [c]. *)
Definition csv_body (filename : string) (c : loc) : M unit :=
  let! ca := get_ca c in
  let! o := get_neo (neo ca) in
  write filename (Csv.row_text (csv_row ca o)).

Definition write_to_csv (results : loc) (filename : string) : M unit :=
  let! _ := open_w filename in
  let! _ := write filename (Csv.row_text fieldnames) in
  let! _ := for_in results (csv_body filename) in
  ret tt.

(** The dictionary that [write_to_json] appends to [data]. *)
Definition json_record (ca : CloseApproach) (o : NearEarthObject) : value :=
  VDict
    [("datetime_utc", VStr (datetime_to_str (time ca)));
     ("distance_au", distance ca);
     ("velocity_km_s", velocity ca);
     ("neo",
       VDict
         [("designation", designation o);
          ("name", if is_None (name o) then VStr "" else name o);
          ("diameter_km", if is_None (diameter o) then VStr "NaN" else diameter o);
          ("potentially_hazardous",
            if truthy (hazardous o) then VBool false else VBool true)])].

(** The body of the loop of [write_to_json], for the approach [c]:
    what it appends to [data]. *)
Definition json_body (c : loc) : M value :=
  let! ca := get_ca c in
  let! o := get_neo (neo ca) in
  ret (json_record ca o).

Definition write_to_json (results : loc) (filename : string) : M unit :=
  let! _ := open_w filename in
  let! data := for_in results json_body in
  write filename (Json.dumps (VList data)).

(** ** Predicates and sample data of the properties *)

(** What one row of the file becomes: [ingested d o] when the loop
    body and the comprehension of [load_neos] turn the row [d] of the
    reader into the object [o]. *)
Definition ingested (d : pydict) (o : NearEarthObject) : Prop :=
  exists d', normalize d = Ok d' /\ neo_of_dict d' = Ok o.

(** Every approach that the iterable [i] has still to yield is a
    [CloseApproach] of the store linked to a [NearEarthObject] of the
    store. *)
Definition linked (w : World) (i : Iterable) : Prop :=
  forall c, In c (pending i) ->
    exists ca l o, ca_heap w !! c = Some ca /\ neo ca = Some l /\ neo_heap w !! l = Some o.

(** [respects P m]: whatever the world, running [m] leaves it in a
    world that [P] relates to it. *)
Definition respects {A : Type} (P : World -> World -> Prop) (m : M A) : Prop :=
  forall w, P w (snd (m w)).

(** No entity has changed: every object of the store has the
    attributes it had. *)
Definition same_entities (w w' : World) : Prop :=
  neo_heap w' = neo_heap w /\ ca_heap w' = ca_heap w.

(** No iterable has moved. *)
Definition same_iterables (w w' : World) : Prop :=
  iter_heap w' = iter_heap w.

(** The file has only grown. *)
Definition extends_file (filename : string) (w w' : World) : Prop :=
  forall old, files w !! filename = Some old ->
    exists rest, files w' !! filename = Some (old +:+ rest).

(** The state of an iterable after one full pass of a loop. *)
Definition consumed (i : Iterable) : Iterable :=
  {| pending := [];
     iter_calls := S (iter_calls i);
     next_calls := (next_calls i + length (pending i) + 1)%nat |}.

(** The header line of the tabular output. *)
Definition header_line : string :=
  "datetime_utc,distance_au,velocity_km_s,designation,name,diameter_km,potentially_hazardous"
  +:+ Csv.lineterminator.

(** The line of the approach of Eros. *)
Definition eros_line : string :=
  "1900-Dec-27 01:30,0.0924,5.57,433,Eros,16.84,False" +:+ Csv.lineterminator.

(** A catalogue of two objects, the second without name and
    diameter. *)
Definition sample_rows : list (list string) :=
  [["pdes"; "name"; "diameter"; "pha"];
   ["433"; "Eros"; "16.84"; "N"];
   ["2020 AB"; ""; ""; "Y"]].

Definition eros : NearEarthObject :=
  new_NearEarthObject (VStr "433") (VStr "Eros")
    (VFloat (PyFloat.of_decimal false 1684 (-2))) (VBool false).

Definition nameless : NearEarthObject :=
  new_NearEarthObject (VStr "2020 AB") VNone (VFloat PyFloat.nan) (VBool true).

(** A catalogue whose diameter is not a number. *)
Definition bad_diameter_rows : list (list string) :=
  [["pdes"; "name"; "diameter"; "pha"];
   ["433"; "Eros"; "16.84 km"; "N"]].

(** The approach of Eros of 1900-Dec-27 01:30, linked to the object
    at [1]. *)
Definition eros_approach : CloseApproach :=
  {| _designation := VStr "433";
     time := mkdatetime 1900 12 27 1 30 0 0;
     distance := VFloat (PyFloat.of_decimal false 924 (-4));
     velocity := VFloat (PyFloat.of_decimal false 557 (-2));
     ca_info := [];
     neo := Some 1%positive |}.

(** A store with Eros at [1], its approach at [2] and, at [3], an
    iterable that yields the approach. *)
Definition sample_world : World :=
  {| neo_heap := {[ 1%positive := eros ]};
     ca_heap := {[ 2%positive := eros_approach ]};
     iter_heap := {[ 3%positive := mkIterable [2%positive] 0 0 ]};
     files := ∅;
     denied := ∅ |}.

(** A close-approach document with the four fields that are read. *)
Definition sample_fields : value :=
  VList [VStr "des"; VStr "cd"; VStr "dist"; VStr "v_rel"].

Definition document (fields : value) (rows : list value) : value :=
  VDict [("fields", fields); ("data", VList rows)].

(** A row with one value more than there are fields. *)
Definition long_row : value :=
  VList [VStr "433"; VStr "1900-Dec-27 01:30"; VStr "0.0924"; VStr "5.57"; VStr "extra"].

(** A row that stops before the velocity. *)
Definition short_row : value :=
  VList [VStr "433"; VStr "1900-Dec-27 01:30"; VStr "0.0924"].

(** ** Predicates and sample data of the further properties *)

(** The text in column [i] of a row, and [None] past its end, as the
    reader fills a short row. *)
Definition cell (row : list string) (i : nat) : value :=
  match nth_error row i with
  | Some s => VStr s
  | None => VNone
  end.

(** The fields of a row by name, in the order of the header. *)
Fixpoint named_cells (fieldnames row : list string) : pydict :=
  match fieldnames with
  | [] => []
  | k :: fieldnames' =>
      (VStr k, cell row 0) :: named_cells fieldnames' (tl row)
  end.

(** The data rows that the reader does not skip. *)
Definition data_rows (rows : list (list string)) : list (list string) :=
  filter (fun r => negb (is_empty_row r)) (tl rows).

(** The columns that [load_neos] reads, in the order in which it
    first reads them. *)
Definition columns : list string := ["pha"; "name"; "diameter"; "pdes"].

(** The first of them that the header does not name. *)
Definition first_missing (fieldnames : list string) : option string :=
  find (fun k => negb (existsb (String.eqb k) fieldnames)) columns.

(** A row of the reader that [load_neos] can turn into an object: it
    has the four fields, and its diameter is blank or converts to a
    float. *)
Definition loadable (d : pydict) : Prop :=
  exists pha nm dia pdes,
    lookup_str "pha" d = Some pha /\ lookup_str "name" d = Some nm
    /\ lookup_str "diameter" d = Some dia /\ lookup_str "pdes" d = Some pdes
    /\ (eq_str dia "" = true \/ exists x, py_float dia = Ok x).

(** What one data row becomes: [loaded fields row ca] when the row,
    paired with the field names, gives the values [cd], [dist],
    [v_rel] and [des] from which [load_approaches] builds the
    approach [ca]. *)
Definition loaded (fields row : value) (ca : CloseApproach) : Prop :=
  exists d cd dist v_rel des t x y,
    zip_dict fields row = Ok d
    /\ getitem "cd" d = Ok cd /\ getitem "dist" d = Ok dist
    /\ getitem "v_rel" d = Ok v_rel /\ getitem "des" d = Ok des
    /\ cd_to_datetime cd = Ok t /\ py_float dist = Ok x /\ py_float v_rel = Ok y
    /\ ca = {| _designation := des; time := t; distance := VFloat x;
               velocity := VFloat y; ca_info := []; neo := None |}.

(** The field names and the values of a record given as pairs. *)
Definition names_of (kvs : list (string * value)) : value :=
  VList (map (fun kv => VStr (fst kv)) kvs).
Definition values_of (kvs : list (string * value)) : value :=
  VList (map snd kvs).

(** The iterable yields the approach [fst e] at [c], and that
    approach is linked to the object [snd e]. *)
Definition resolved (w : World) (c : loc) (e : CloseApproach * NearEarthObject) : Prop :=
  ca_heap w !! c = Some (fst e)
  /\ exists l, neo (fst e) = Some l /\ neo_heap w !! l = Some (snd e).

(** The rows of the tabular output for a sequence of linked
    approaches, one after the other. *)
Definition csv_rows (es : list (CloseApproach * NearEarthObject)) : string :=
  fold_right String.append "" (map (fun e => Csv.row_text (csv_row (fst e) (snd e))) es).

(** The records of the structured output for them. *)
Definition json_records (es : list (CloseApproach * NearEarthObject)) : list value :=
  map (fun e => json_record (fst e) (snd e)) es.

(** No file has changed. *)
Definition same_files (w w' : World) : Prop :=
  files w' = files w.

(** Nothing but the file at [filename] and the iterables has
    changed: no entity, no other file, no permission. *)
Definition untouched (filename : string) (w w' : World) : Prop :=
  neo_heap w' = neo_heap w /\ ca_heap w' = ca_heap w /\ denied w' = denied w
  /\ forall f, f <> filename -> files w' !! f = files w !! f.

(** Where a loop stops: at the end of the iterable, or before an
    element with the elements that follow it. *)
Definition tail_of (stop : option (loc * list loc)) : list loc :=
  match stop with
  | None => []
  | Some (c, post) => c :: post
  end.

Definition left_of (stop : option (loc * list loc)) : list loc :=
  match stop with
  | None => []
  | Some (_, post) => post
  end.

Definition outcome {A : Type} (stop : option (loc * list loc)) (a : A) : result A :=
  match stop with
  | None => Ok a
  | Some _ => Raise AttributeError
  end.

Definition stops_at (w : World) (stop : option (loc * list loc)) : Prop :=
  match stop with
  | None => True
  | Some (c, _) => forall e, ~ resolved w c e
  end.

(** An approach that was never linked, and a store whose iterable
    yields the approach of Eros, then that one, then Eros again. *)
Definition stray_approach : CloseApproach :=
  {| _designation := VStr "1999 ZZ";
     time := mkdatetime 2000 1 1 0 0 0 0;
     distance := VFloat (PyFloat.of_decimal false 1 (-1));
     velocity := VFloat (PyFloat.of_decimal false 2 0);
     ca_info := [];
     neo := None |}.

Definition stray_world : World :=
  {| neo_heap := {[ 1%positive := eros ]};
     ca_heap := {[ 2%positive := eros_approach; 4%positive := stray_approach ]};
     iter_heap := {[ 3%positive := mkIterable [2%positive; 4%positive; 2%positive] 0 0 ]};
     files := {[ "neos.csv" := "old" ]};
     denied := {[ "locked.csv" ]} |}.

(** * Properties *)

(** ** The model on the examples of the specification *)

Example float_of_16_84 :
  PyFloat.of_string "16.84" = Ok (S754_finite false 4740038607807447 (-48))
  /\ PyFloat.repr (S754_finite false 4740038607807447 (-48)) = "16.84".
Proof. split; vm_compute; reflexivity. Qed.

Example float_of_texts :
  map PyFloat.of_string ["1_000.5"; " 2.5e3 "; "-inf"; "NaN"; ""; "1__0"; "12 km"; "."]
  = [Ok (S754_finite false 8800491068719104 (-43));
     Ok (S754_finite false 5497558138880000 (-41));
     Ok (S754_infinity true); Ok S754_nan;
     Raise ValueError; Raise ValueError; Raise ValueError; Raise ValueError].
Proof. vm_compute. reflexivity. Qed.

Example float_repr_layouts :
  map (fun s => rbind (PyFloat.of_string s) (fun x => Ok (PyFloat.repr x)))
      ["0.1"; "100"; "1e16"; "0.00001"; "123456789012345678"; "5e-324"; "-0.0"; "nan"]
  = map Ok ["0.1"; "100.0"; "1e+16"; "1e-05"; "1.2345678901234568e+17"; "5e-324"; "-0.0";
            "nan"].
Proof. vm_compute. reflexivity. Qed.

Example load_neos_sample : load_neos sample_rows = Ok [eros; nameless].
Proof. vm_compute. reflexivity. Qed.

Example load_neos_bad_diameter : load_neos bad_diameter_rows = Raise ValueError.
Proof. vm_compute. reflexivity. Qed.

Example load_approaches_sample :
  load_approaches
    (document sample_fields
       [VList [VStr "433"; VStr "1900-Dec-27 01:30"; VStr "0.0924"; VStr "5.57"]])
  = Ok [{| _designation := VStr "433";
           time := mkdatetime 1900 12 27 1 30 0 0;
           distance := VFloat (PyFloat.of_decimal false 924 (-4));
           velocity := VFloat (PyFloat.of_decimal false 557 (-2));
           ca_info := [];
           neo := None |}].
Proof. vm_compute. reflexivity. Qed.

Example fullname_raises :
  fullname eros = Raise AttributeError /\ fullname nameless = Raise TypeError.
Proof. split; reflexivity. Qed.

Example write_to_csv_unlinked :
  let w := {| neo_heap := ∅;
              ca_heap := {[ 2%positive := mkCloseApproach (VStr "433")
                              (mkdatetime 1900 12 27 1 30 0 0) VNone VNone [] None ]};
              iter_heap := {[ 3%positive := mkIterable [2%positive] 0 0 ]};
              files := ∅; denied := ∅ |} in
  fst (write_to_csv 3%positive "neos.csv" w) = Raise AttributeError
  /\ files (snd (write_to_csv 3%positive "neos.csv" w)) !! "neos.csv" = Some header_line.
Proof. split; vm_compute; reflexivity. Qed.

(** ** Comprehensions *)

Section Comprehension.
Context {A B : Type} (f : A -> result B).

Lemma rmap_Forall2 (l : list A) (l' : list B) :
  rmap f l = Ok l' -> Forall2 (fun x y => f x = Ok y) l l'.
Proof.
  revert l'; induction l as [|x l IH]; simpl; intros l' H.
  - injection H as <-. constructor.
  - destruct (f x) as [y|e] eqn:Hx; simpl in H; [|discriminate].
    destruct (rmap f l) as [ys|e] eqn:Hl; simpl in H; [|discriminate].
    injection H as <-. constructor; auto.
Qed.

Lemma rmap_raises (l : list A) (x : A) :
  In x l -> (exists e, f x = Raise e) -> exists e, rmap f l = Raise e.
Proof.
  induction l as [|a l IH]; simpl; intros Hin Hx; [contradiction|].
  destruct (f a) as [y|e] eqn:Ha; simpl; [|eauto].
  destruct Hin as [->|Hin].
  - destruct Hx as [e He]. congruence.
  - destruct (IH Hin Hx) as [e ->]. simpl. eauto.
Qed.

Lemma rmap_In (l : list A) (l' : list B) (x : A) :
  rmap f l = Ok l' -> In x l -> exists y, f x = Ok y /\ In y l'.
Proof.
  intros H%rmap_Forall2 Hin.
  induction H as [|a b l l' Hab _ IH]; simpl in *; [contradiction|].
  destruct Hin as [->|Hin]; [eauto|].
  destruct (IH Hin) as (y & ? & ?); eauto.
Qed.
End Comprehension.

Lemma Forall2_In_r {A B : Type} (R : A -> B -> Prop) (l : list A) (l' : list B) (y : B) :
  Forall2 R l l' -> In y l' -> exists x, In x l /\ R x y.
Proof.
  induction 1 as [|a b l l' Hab _ IH]; simpl; [contradiction|].
  intros [->|Hin]; [eauto|].
  destruct (IH Hin) as (x & ? & ?); eauto.
Qed.

(** ** Ingestion of the objects *)

Lemma eq_str_true (v : value) (s : string) : eq_str v s = true <-> v = VStr s.
Proof.
  destruct v; simpl; try (split; [discriminate|intros [=]]).
  rewrite String.eqb_eq. split; [intros ->; reflexivity|intros [=]; assumption].
Qed.

Lemma load_neos_ingested (rows : list (list string)) (neos : list NearEarthObject) :
  load_neos rows = Ok neos -> Forall2 ingested (DictReader rows) neos.
Proof.
  unfold load_neos. intros H.
  destruct (rmap normalize (DictReader rows)) as [ds|e] eqn:H1; simpl in H; [|discriminate].
  apply rmap_Forall2 in H1, H.
  revert neos H. induction H1 as [|d d' l ds Hd _ IH]; intros neos H.
  - inversion H; subst. constructor.
  - inversion H; subst. constructor; [exists d'; auto|auto].
Qed.

(** The object that a row becomes, attribute by attribute. *)
Lemma ingested_inv (d : pydict) (o : NearEarthObject) :
  ingested d o ->
  exists pdes pha nm dia x,
    getitem "pdes" d = Ok pdes /\ getitem "pha" d = Ok pha
    /\ getitem "name" d = Ok nm /\ getitem "diameter" d = Ok dia
    /\ (if eq_str dia "" then x = PyFloat.nan else py_float dia = Ok x)
    /\ o = new_NearEarthObject pdes (if eq_str nm "" then VNone else nm)
             (VFloat x) (VBool (eq_str pha "Y")).
Proof.
  intros (d' & Hn & Ho). unfold normalize in Hn.
  destruct (getitem "pha" d) as [pha|] eqn:Hpha; simpl in Hn; [|discriminate].
  assert (Hn' :
    (let* nm := getitem "name" (setitem (VStr "pha") (VBool (eq_str pha "Y")) d) in
     let elem := if eq_str nm "" then setitem (VStr "name") VNone
                      (setitem (VStr "pha") (VBool (eq_str pha "Y")) d)
                 else setitem (VStr "pha") (VBool (eq_str pha "Y")) d in
     let* dia := getitem "diameter" elem in
     Ok (if eq_str dia "" then setitem (VStr "diameter") (VFloat PyFloat.nan) elem
         else elem)) = Ok d')
    by (destruct (eq_str pha "Y"); exact Hn).
  clear Hn. revert Hn'.
  unfold getitem, setitem in *; cbn [lookup_str eq_str String.eqb Ascii.eqb Bool.eqb].
  destruct (lookup_str "name" d) as [nm|] eqn:Hnm; cbn [rbind]; [|discriminate].
  destruct (lookup_str "pdes" d) as [pdes|] eqn:Hpdes.
  2:{ intros Hd'. exfalso. revert Hd' Ho. unfold neo_of_dict, getitem.
      destruct (eq_str nm ""); cbn [lookup_str eq_str String.eqb Ascii.eqb Bool.eqb];
        destruct (lookup_str "diameter" d) as [dia|]; cbn [rbind]; try discriminate;
        destruct (eq_str dia ""); intros [= <-];
        cbn [lookup_str eq_str String.eqb Ascii.eqb Bool.eqb]; rewrite Hpdes;
        discriminate. }
  destruct (lookup_str "diameter" d) as [dia|] eqn:Hdia.
  2:{ destruct (eq_str nm ""); cbn [lookup_str eq_str String.eqb Ascii.eqb Bool.eqb];
        rewrite Hdia; discriminate. }
  intros Hd'.
  exists pdes, pha, nm, dia.
  revert Hd' Ho. unfold neo_of_dict, getitem.
  destruct (eq_str nm "") eqn:Enm, (eq_str dia "") eqn:Edia;
    cbn [lookup_str eq_str String.eqb Ascii.eqb Bool.eqb]; rewrite Hdia; cbn [rbind];
    rewrite ?Edia; intros [= <-];
    cbn [lookup_str eq_str String.eqb Ascii.eqb Bool.eqb];
    rewrite ?Hpdes, ?Hnm, ?Hdia; cbn [rbind py_float].
  - intros [= <-]. exists PyFloat.nan. auto 10.
  - destruct (py_float dia) as [x|] eqn:Hx; cbn [rbind]; [|discriminate].
    intros [= <-]. exists x. auto 10.
  - intros [= <-]. exists PyFloat.nan. auto 10.
  - destruct (py_float dia) as [x|] eqn:Hx; cbn [rbind]; [|discriminate].
    intros [= <-]. exists x. auto 10.
Qed.

(** C1: for every data row that [load_neos] ingests, the object's
    [hazardous] attribute is [True] if and only if the raw
    hazardous-flag field of the row is the text [Y]; any other raw
    value, the empty text included, gives [False]. *)
Theorem load_neos_hazardous (rows : list (list string)) (neos : list NearEarthObject) :
  load_neos rows = Ok neos ->
  Forall2 (fun d o =>
             exists raw, getitem "pha" d = Ok raw
                         /\ hazardous o = VBool (eq_str raw "Y")
                         /\ (hazardous o = VBool true <-> raw = VStr "Y")
                         /\ (raw <> VStr "Y" -> hazardous o = VBool false))
          (DictReader rows) neos.
Proof.
  intros H%load_neos_ingested.
  eapply Forall2_impl; [exact H|]. cbv beta.
  intros d o (pdes & pha & nm & dia & x & _ & Hpha & _ & _ & _ & ->)%ingested_inv.
  exists pha. cbn [hazardous new_NearEarthObject].
  repeat split; auto.
  - intros [= E]. apply eq_str_true, E.
  - intros E%eq_str_true. now rewrite E.
  - intros Hne. destruct (eq_str pha "Y") eqn:E; [|reflexivity].
    apply eq_str_true in E. contradiction.
Qed.

Lemma load_neos_hazardous_witness :
  load_neos sample_rows = Ok [eros; nameless]
  /\ Forall2 (fun d o =>
                exists raw, getitem "pha" d = Ok raw
                            /\ hazardous o = VBool (eq_str raw "Y")
                            /\ (hazardous o = VBool true <-> raw = VStr "Y")
                            /\ (raw <> VStr "Y" -> hazardous o = VBool false))
             (DictReader sample_rows) [eros; nameless].
Proof.
  split; [vm_compute; reflexivity|].
  apply (load_neos_hazardous sample_rows [eros; nameless]).
  vm_compute; reflexivity.
Defined.

(** C2: for every data row that [load_neos] ingests, a blank name
    field gives an object whose name is [None], not the empty text,
    and a blank diameter field gives a diameter that is a float not
    equal to itself. *)
Theorem load_neos_blank_fields (rows : list (list string)) (neos : list NearEarthObject) :
  load_neos rows = Ok neos ->
  Forall2 (fun d o =>
             (getitem "name" d = Ok (VStr "") -> name o = VNone /\ name o <> VStr "")
             /\ (getitem "diameter" d = Ok (VStr "") ->
                 exists x, diameter o = VFloat x /\ PyFloat.eqb x x = false))
          (DictReader rows) neos.
Proof.
  intros H%load_neos_ingested.
  eapply Forall2_impl; [exact H|]. cbv beta.
  intros d o (pdes & pha & nm & dia & x & _ & _ & Hnm & Hdia & Hx & ->)%ingested_inv.
  cbn [name diameter new_NearEarthObject]. split.
  - rewrite Hnm. intros [= ->]. cbn. split; [reflexivity|discriminate].
  - rewrite Hdia. intros [= ->]. cbn in Hx. subst x.
    exists PyFloat.nan. split; reflexivity.
Qed.

Lemma load_neos_blank_fields_witness :
  load_neos sample_rows = Ok [eros; nameless]
  /\ Forall2 (fun d o =>
                (getitem "name" d = Ok (VStr "") -> name o = VNone /\ name o <> VStr "")
                /\ (getitem "diameter" d = Ok (VStr "") ->
                    exists x, diameter o = VFloat x /\ PyFloat.eqb x x = false))
             (DictReader sample_rows) [eros; nameless].
Proof.
  split; [vm_compute; reflexivity|].
  apply (load_neos_blank_fields sample_rows [eros; nameless]).
  vm_compute; reflexivity.
Defined.

(** C8: every object that [load_neos] produces has a float for its
    diameter, never [None]; so for an approach linked to such an
    object neither serializer takes its branch for an absent
    diameter: the cell of the row and the entry of the record are the
    float itself. *)
Theorem load_neos_diameter_never_None (rows : list (list string))
    (neos : list NearEarthObject) (o : NearEarthObject) :
  load_neos rows = Ok neos ->
  In o neos ->
  (exists x, diameter o = VFloat x)
  /\ is_None (diameter o) = false
  /\ forall ca : CloseApproach,
       nth 5 (csv_row ca o) VNone = diameter o
       /\ (let* n := subscript (json_record ca o) "neo" in subscript n "diameter_km")
          = Ok (diameter o).
Proof.
  intros H%load_neos_ingested Hin.
  destruct (Forall2_In_r _ _ _ _ H Hin) as (d & _ & Hd).
  apply ingested_inv in Hd as (pdes & pha & nm & dia & x & _ & _ & _ & _ & _ & ->).
  cbn [diameter new_NearEarthObject]. split; [eauto|]. split; [reflexivity|].
  intros ca. split; reflexivity.
Qed.

Lemma load_neos_diameter_never_None_witness :
  load_neos sample_rows = Ok [eros; nameless]
  /\ In nameless [eros; nameless]
  /\ (exists x, diameter nameless = VFloat x)
  /\ is_None (diameter nameless) = false.
Proof.
  assert (H : load_neos sample_rows = Ok [eros; nameless]) by (vm_compute; reflexivity).
  assert (Hin : In nameless [eros; nameless]) by (simpl; auto).
  split; [exact H|]. split; [exact Hin|].
  destruct (load_neos_diameter_never_None sample_rows [eros; nameless] nameless H Hin)
    as (Hx & Hn & _).
  split; assumption.
Defined.

(** C10: a diameter field that is not empty and not the text of a
    number makes [load_neos] raise [ValueError] instead of producing
    objects; only the empty field becomes the not-a-number: for every
    object that is returned, the diameter is [float] of the raw field
    when that field is not empty. *)
Theorem load_neos_diameter_conversion :
  (eq_str (VStr "16.84 km") "" = false
   /\ getitem "diameter" (row_dict ["pdes"; "name"; "diameter"; "pha"]
                                   ["433"; "Eros"; "16.84 km"; "N"])
      = Ok (VStr "16.84 km")
   /\ load_neos bad_diameter_rows = Raise ValueError)
  /\ forall rows neos,
       load_neos rows = Ok neos ->
       Forall2 (fun d o =>
                  forall raw, getitem "diameter" d = Ok raw ->
                              eq_str raw "" = false ->
                              exists x, py_float raw = Ok x /\ diameter o = VFloat x)
               (DictReader rows) neos.
Proof.
  split; [repeat split; vm_compute; reflexivity|].
  intros rows neos H%load_neos_ingested.
  eapply Forall2_impl; [exact H|]. cbv beta.
  intros d o (pdes & pha & nm & dia & x & _ & _ & _ & Hdia & Hx & ->)%ingested_inv.
  intros raw Hraw Hne. rewrite Hdia in Hraw. injection Hraw as ->.
  rewrite Hne in Hx. exists x. split; [exact Hx|reflexivity].
Qed.

Lemma load_neos_diameter_conversion_witness :
  load_neos sample_rows = Ok [eros; nameless]
  /\ Forall2 (fun d o =>
                forall raw, getitem "diameter" d = Ok raw ->
                            eq_str raw "" = false ->
                            exists x, py_float raw = Ok x /\ diameter o = VFloat x)
             (DictReader sample_rows) [eros; nameless].
Proof.
  split; [vm_compute; reflexivity|].
  apply (proj2 load_neos_diameter_conversion sample_rows [eros; nameless]).
  vm_compute; reflexivity.
Defined.

(** ** The calendar rule *)

Lemma digit_char_digit (k : Z) :
  0 <= k <= 9 -> is_digit (digit_char k) = true /\ digit_val (digit_char k) = k.
Proof.
  intros H.
  assert (E : k = 0 \/ k = 1 \/ k = 2 \/ k = 3 \/ k = 4 \/ k = 5 \/ k = 6 \/ k = 7
              \/ k = 8 \/ k = 9) by lia.
  repeat (destruct E as [->|E]; [split; reflexivity|]). subst k. split; reflexivity.
Qed.

Lemma decimal_digit (n k : Z) : 0 <= (n / k) mod 10 <= 9.
Proof. pose proof (Z.mod_pos_bound (n / k) 10). lia. Qed.

Lemma two_digits (n acc : Z) :
  0 <= n -> 10 * (10 * acc + n / 10 mod 10) + n mod 10 = 100 * acc + n mod 100.
Proof. intros H. Z.to_euclidean_division_equations. lia. Qed.

Lemma four_digits (n : Z) :
  0 <= n < 10000 ->
  100 * (10 * (10 * 0 + n / 1000 mod 10) + n / 100 mod 10) + n mod 100 = n.
Proof. intros H. Z.to_euclidean_division_equations. lia. Qed.

Lemma number_pad2 (n : Z) (acc : Z) :
  0 <= n -> number (pad2 n) acc = Some (100 * acc + n mod 100).
Proof.
  intros H. unfold pad2, str1. cbn [number].
  destruct (digit_char_digit (n / 10 mod 10)) as [-> ->]; [apply decimal_digit|].
  destruct (digit_char_digit (n mod 10)) as [-> ->].
  { rewrite <- (Z.div_1_r n) at 1 2. apply decimal_digit. }
  f_equal. apply two_digits, H.
Qed.

Lemma number_pad4 (n : Z) :
  0 <= n < 10000 -> number (pad4 n) 0 = Some n.
Proof.
  intros H. unfold pad4. cbn [number].
  destruct (digit_char_digit (n / 1000 mod 10)) as [-> ->]; [apply decimal_digit|].
  destruct (digit_char_digit (n / 100 mod 10)) as [-> ->]; [apply decimal_digit|].
  rewrite number_pad2 by lia. f_equal. apply four_digits, H.
Qed.

Lemma datetime_roundtrip (dt : datetime) :
  valid_datetime dt = true -> minute_precision dt = true ->
  cd_to_datetime (VStr (datetime_to_str dt)) = Ok dt.
Proof.
  destruct dt as [y mo d h mi s us]. intros Hv Hm.
  assert (Hs : s = 0 /\ us = 0).
  { unfold minute_precision in Hm; cbn [second microsecond] in Hm. lia. }
  destruct Hs as [-> ->].
  assert (Hr : 1 <= y <= 9999 /\ 1 <= mo <= 12 /\ 1 <= d <= 31 /\ 0 <= h <= 23
               /\ 0 <= mi <= 59).
  { unfold valid_datetime, days_in_month in Hv;
      cbn [year month day hour minute second microsecond] in Hv.
    destruct (mo =? 2), (is_leap y), ((mo =? 4) || (mo =? 6) || (mo =? 9) || (mo =? 11));
      lia. }
  destruct Hr as (Hy & Hmo & Hd & Hh & Hmi).
  assert (E : mo = 1 \/ mo = 2 \/ mo = 3 \/ mo = 4 \/ mo = 5 \/ mo = 6 \/ mo = 7
              \/ mo = 8 \/ mo = 9 \/ mo = 10 \/ mo = 11 \/ mo = 12) by lia.
  unfold cd_to_datetime, parse_cd, datetime_to_str, pad4, pad2, str1;
    cbn [year month day hour minute second microsecond].
  repeat (destruct E as [E|E]); subst mo;
    cbv beta iota zeta fix match delta
      [month_abbr String.append substring String.get String.length char_at
       Nat.leb Nat.sub seconds_part andb month_of_abbr find String.eqb Ascii.eqb Bool.eqb];
    change (String (digit_char (y / 1000 mod 10)) (String (digit_char (y / 100 mod 10))
             (String (digit_char (y / 10 mod 10)) (String (digit_char (y mod 10)) ""))))
      with (pad4 y);
    change (String (digit_char (d / 10 mod 10)) (String (digit_char (d mod 10)) ""))
      with (pad2 d);
    change (String (digit_char (h / 10 mod 10)) (String (digit_char (h mod 10)) ""))
      with (pad2 h);
    change (String (digit_char (mi / 10 mod 10)) (String (digit_char (mi mod 10)) ""))
      with (pad2 mi);
    rewrite number_pad4, !number_pad2 by lia;
    rewrite !Z.mul_0_r, !Z.add_0_l, !Z.mod_small by lia;
    rewrite Hv; reflexivity.
Qed.

(** C3: for every valid date-time of minute precision, formatting it
    to the compact calendar text, as [CloseApproach.time_str] and the
    serializers do, and reading that text back with the calendar rule
    gives the same date-time. *)
Theorem time_str_roundtrip (ca : CloseApproach) :
  valid_datetime (time ca) = true ->
  minute_precision (time ca) = true ->
  cd_to_datetime (VStr (time_str ca)) = Ok (time ca)
  /\ cd_to_datetime (VStr (datetime_to_str (time ca))) = Ok (time ca).
Proof.
  intros Hv Hm. unfold time_str. split; apply datetime_roundtrip; assumption.
Qed.

Lemma time_str_roundtrip_witness :
  valid_datetime (time eros_approach) = true
  /\ minute_precision (time eros_approach) = true
  /\ time_str eros_approach = "1900-Dec-27 01:30"
  /\ cd_to_datetime (VStr (time_str eros_approach)) = Ok (time eros_approach).
Proof.
  split; [reflexivity|]. split; [reflexivity|]. split; [reflexivity|].
  apply (time_str_roundtrip eros_approach); reflexivity.
Defined.

(** ** The display form *)

(** The text that [fullname] computes before it assigns it: for an
    object whose designation and name are texts, the designation, an
    underscore and the name. *)
Lemma fullname_value_joined (o : NearEarthObject) (d n : string) :
  designation o = VStr d ->
  name o = VStr n ->
  fullname_value o = Ok (VStr ((d +:+ "_") +:+ n)).
Proof.
  intros Hd Hn. unfold fullname_value. rewrite Hd, Hn. reflexivity.
Qed.

(** C5: the property [fullname] is meant to return the display form
    of an object that has a name.  For Eros, whose designation and
    name are both texts, it computes the text [433_Eros] and then
    raises [AttributeError] instead of returning it: it assigns the
    text to [self.fullname], the property itself, which has no
    setter. *)
Theorem fullname_raises_for_Eros :
  designation eros = VStr "433"
  /\ name eros = VStr "Eros"
  /\ fullname_value eros = Ok (VStr "433_Eros")
  /\ fullname eros = Raise AttributeError
  /\ fullname eros <> Ok (VStr ("433" +:+ "Eros")).
Proof.
  split; [reflexivity|]. split; [reflexivity|]. split; [reflexivity|].
  split; [reflexivity|]. discriminate.
Qed.

(** ** Ingestion of the approaches *)

Lemma in_combine_firstn {A B : Type} (l : list A) (l' : list B) (a : A) (b : B) :
  In (a, b) (combine l l') -> In a (firstn (length l') l).
Proof.
  revert l'; induction l as [|x l IH]; intros [|y l']; simpl; try contradiction.
  intros [[= -> ->]|Hin]; [auto|right; eauto].
Qed.

Lemma lookup_str_None (k : string) (d : pydict) :
  (forall kv, In kv d -> fst kv <> VStr k) -> lookup_str k d = None.
Proof.
  induction d as [|[k' v] d IH]; simpl; intros H; [reflexivity|].
  destruct (eq_str k' k) eqn:E.
  - apply eq_str_true in E. exfalso. apply (H (k', v)); auto.
  - apply IH. intros kv Hin. apply H. auto.
Qed.

(** A row that binds one of the four fields to nothing is not turned
    into an approach. *)
Lemma approach_of_dict_raises (d : pydict) (k : string) :
  In k ["cd"; "dist"; "v_rel"; "des"] ->
  lookup_str k d = None ->
  exists e, approach_of_dict d = Raise e.
Proof.
  intros Hk Hnone. unfold approach_of_dict, getitem.
  destruct (lookup_str "cd" d) as [cd|] eqn:Hcd; cbn [rbind]; [|eauto].
  destruct (lookup_str "dist" d) as [dist0|] eqn:Hdist; cbn [rbind]; [|eauto].
  destruct (py_float dist0) as [dist|]; cbn [rbind]; [|eauto].
  destruct (lookup_str "v_rel" d) as [v0|] eqn:Hv; cbn [rbind]; [|eauto].
  destruct (py_float v0) as [v|]; cbn [rbind]; [|eauto].
  destruct (lookup_str "des" d) as [des|] eqn:Hdes; cbn [rbind]; [|eauto].
  simpl in Hk. destruct Hk as [<-|[<-|[<-|[<-|[]]]]]; congruence.
Qed.

(** C6, as the code has it: [load_approaches] fails when the document
    has no list of field names, and when some data row, paired with
    the field names, has no value for one of the four fields that are
    read, which is so for a row that stops before such a field. *)
Theorem load_approaches_structural (content : value) :
  ((forall v, subscript content "fields" <> Ok v) ->
   exists e, load_approaches content = Raise e)
  /\ (forall (fields rows row : list value) (k : string),
        subscript content "fields" = Ok (VList fields) ->
        subscript content "data" = Ok (VList rows) ->
        In (VList row) rows ->
        In k ["cd"; "dist"; "v_rel"; "des"] ->
        ~ In (VStr k) (firstn (length row) fields) ->
        exists e, load_approaches content = Raise e).
Proof.
  split.
  - intros H. unfold load_approaches.
    destruct (subscript content "fields") as [v|e] eqn:Hf; cbn [rbind]; [|eauto].
    exfalso. apply (H v). reflexivity.
  - intros fields rows row k Hf Hd Hrow Hk Hshort. unfold load_approaches.
    rewrite Hf, Hd. cbn [rbind iterate].
    destruct (rmap (zip_dict (VList fields)) rows) as [ds|e] eqn:Hz; cbn [rbind]; [|eauto].
    destruct (rmap_In _ _ _ _ Hz Hrow) as (d & Hzip & Hin).
    apply (rmap_raises _ _ d Hin).
    apply (approach_of_dict_raises d k Hk).
    unfold zip_dict in Hzip. cbn [iterate rbind] in Hzip.
    destruct (forallb _ _) in Hzip; [|discriminate]. injection Hzip as <-.
    apply lookup_str_None. intros [k' v] Hkv%in_rev%in_combine_firstn E.
    simpl in E. subst k'. contradiction.
Qed.

Lemma load_approaches_structural_witness :
  subscript (document sample_fields [short_row]) "fields" = Ok sample_fields
  /\ In short_row [short_row]
  /\ ~ In (VStr "v_rel") (firstn 3 [VStr "des"; VStr "cd"; VStr "dist"; VStr "v_rel"])
  /\ exists e, load_approaches (document sample_fields [short_row]) = Raise e.
Proof.
  assert (Hn : ~ In (VStr "v_rel")
                 (firstn 3 [VStr "des"; VStr "cd"; VStr "dist"; VStr "v_rel"])).
  { simpl. intros [H|[H|[H|[]]]]; discriminate H. }
  split; [reflexivity|]. split; [left; reflexivity|]. split; [exact Hn|].
  apply (proj2 (load_approaches_structural (document sample_fields [short_row]))
           [VStr "des"; VStr "cd"; VStr "dist"; VStr "v_rel"] [short_row]
           [VStr "433"; VStr "1900-Dec-27 01:30"; VStr "0.0924"] "v_rel").
  - reflexivity.
  - reflexivity.
  - left; reflexivity.
  - simpl; auto.
  - exact Hn.
Defined.

(** C6, as it is stated, fails: a row with one value more than there
    are field names is turned into an approach, the value dropped. *)
Lemma load_approaches_accepts_long_row :
  ~ (forall (content : value) (fields rows row : list value),
       subscript content "fields" = Ok (VList fields) ->
       subscript content "data" = Ok (VList rows) ->
       In (VList row) rows ->
       length row <> length fields ->
       exists e, load_approaches content = Raise e).
Proof.
  intros H.
  destruct (H (document sample_fields [long_row])
              [VStr "des"; VStr "cd"; VStr "dist"; VStr "v_rel"] [long_row]
              [VStr "433"; VStr "1900-Dec-27 01:30"; VStr "0.0924"; VStr "5.57";
               VStr "extra"]
              eq_refl eq_refl (or_introl eq_refl)) as [e He].
  - simpl. discriminate.
  - vm_compute in He. discriminate He.
Qed.

(** ** The serializers *)

Lemma append_nil_r (s : string) : s +:+ "" = s.
Proof.
  induction s as [|c s IH]; [reflexivity|].
  change (String c (s +:+ "") = String c s). now rewrite IH.
Qed.

Lemma append_assoc (s t u : string) : (s +:+ t) +:+ u = s +:+ (t +:+ u).
Proof.
  induction s as [|c s IH]; [reflexivity|].
  change (String c ((s +:+ t) +:+ u) = String c (s +:+ (t +:+ u))). now rewrite IH.
Qed.

#[local] Instance same_entities_preorder : PreOrder same_entities.
Proof.
  split.
  - intros w. split; reflexivity.
  - intros w1 w2 w3 [H1 H2] [H3 H4]. split; congruence.
Qed.

#[local] Instance same_iterables_preorder : PreOrder same_iterables.
Proof.
  split; [intros w; reflexivity|].
  intros w1 w2 w3 H1 H2. unfold same_iterables in *. congruence.
Qed.

#[local] Instance extends_file_preorder (filename : string) : PreOrder (extends_file filename).
Proof.
  split.
  - intros w old H. exists "". now rewrite append_nil_r.
  - intros w1 w2 w3 H1 H2 old H.
    destruct (H1 old H) as [r1 Hr1]. destruct (H2 _ Hr1) as [r2 Hr2].
    exists (r1 +:+ r2). now rewrite <- append_assoc.
Qed.

Section Respects.
Context (P : World -> World -> Prop) `{!PreOrder P}.

Lemma respects_ret {A : Type} (a : A) : respects P (ret a).
Proof. intros w. reflexivity. Qed.

Lemma respects_bind {A B : Type} (m : M A) (k : A -> M B) :
  respects P m -> (forall a, respects P (k a)) -> respects P (bind m k).
Proof.
  intros Hm Hk w. unfold bind. specialize (Hm w).
  destruct (m w) as [[a|e] w']; simpl in *; [|exact Hm].
  etransitivity; [exact Hm|apply Hk].
Qed.

Lemma respects_for_items {B : Type} (it : loc) (body : loc -> M B) (items : list loc) :
  (forall i, respects P (put_iter it i)) ->
  (forall c, respects P (body c)) ->
  forall i, respects P (for_items it i items body).
Proof.
  intros Hput Hbody. induction items as [|c rest IH]; intros i; cbn [for_items].
  - apply respects_bind; [apply Hput|intros _; apply respects_ret].
  - apply respects_bind; [apply Hput|intros _].
    apply respects_bind; [apply Hbody|intros b].
    apply respects_bind; [apply IH|intros bs; apply respects_ret].
Qed.

Lemma respects_for_in {B : Type} (it : loc) (body : loc -> M B) :
  (forall i, respects P (put_iter it i)) ->
  (forall c, respects P (body c)) ->
  respects P (for_in it body).
Proof.
  intros Hput Hbody w. unfold for_in.
  destruct (iter_heap w !! it) as [i|]; [|reflexivity].
  apply respects_bind; [apply Hput|intros _]. apply respects_for_items; assumption.
Qed.
End Respects.

Lemma get_ca_same (P : World -> World -> Prop) `{!PreOrder P} (c : loc) : respects P (get_ca c).
Proof. intros w. unfold get_ca. destruct (ca_heap w !! c); reflexivity. Qed.

Lemma get_neo_same (P : World -> World -> Prop) `{!PreOrder P} (r : option loc) :
  respects P (get_neo r).
Proof.
  intros w. unfold get_neo. destruct r as [l|]; [|reflexivity].
  destruct (neo_heap w !! l); reflexivity.
Qed.

Lemma open_w_entities (filename : string) : respects same_entities (open_w filename).
Proof. intros w. unfold open_w. destruct (decide _); split; reflexivity. Qed.

Lemma write_entities (filename s : string) : respects same_entities (write filename s).
Proof. intros w. split; reflexivity. Qed.

Lemma put_iter_entities (it : loc) (i : Iterable) : respects same_entities (put_iter it i).
Proof. intros w. split; reflexivity. Qed.

Lemma put_iter_extends (filename : string) (it : loc) (i : Iterable) :
  respects (extends_file filename) (put_iter it i).
Proof. intros w old H. exists "". rewrite append_nil_r. exact H. Qed.

Lemma write_extends (filename s : string) : respects (extends_file filename) (write filename s).
Proof.
  intros w old H. unfold write. cbn [snd set_files files]. rewrite H. cbn [default].
  exists s. apply lookup_insert_eq.
Qed.

(** A loop whose body succeeds on every pending element runs to its
    end, and leaves the iterable exhausted. *)
Lemma for_items_total {B : Type} (it : loc) (body : loc -> M B) (w0 : World)
    (items : list loc) :
  (forall c, respects same_entities (body c)) ->
  (forall c w, In c items -> same_entities w0 w -> exists b, fst (body c w) = Ok b) ->
  forall i w, same_entities w0 w ->
    exists bs,
      fst (for_items it i items body w) = Ok bs
      /\ iter_heap (snd (for_items it i items body w)) !! it
         = Some {| pending := []; iter_calls := iter_calls i;
                   next_calls := (next_calls i + length items + 1)%nat |}.
Proof.
  intros He. induction items as [|c rest IH]; intros Hok i w Hw; cbn [for_items].
  - exists []. unfold bind, put_iter, ret; cbn. split; [reflexivity|].
    rewrite lookup_insert_eq. unfold after_next. do 2 f_equal. lia.
  - unfold bind. cbn [put_iter].
    set (w1 := set_iter_heap (<[it:=after_next i rest]> (iter_heap w)) w).
    assert (Hw1 : same_entities w0 w1) by exact Hw.
    destruct (Hok c w1 (or_introl eq_refl) Hw1) as [b Hb].
    pose proof (He c w1) as He1.
    destruct (body c w1) as [r w2]. cbn [fst snd] in *. subst r.
    assert (Hw2 : same_entities w0 w2) by (etransitivity; eassumption).
    destruct (IH (fun c' w' Hin => Hok c' w' (or_intror Hin)) (after_next i rest) w2 Hw2)
      as (bs & Hbs & Hit).
    destruct (for_items it (after_next i rest) rest body w2) as [r w3].
    cbn [fst snd] in *. subst r. exists (b :: bs). cbn [ret fst snd].
    split; [reflexivity|]. rewrite Hit. cbn [after_next iter_calls next_calls length].
    do 2 f_equal. lia.
Qed.

Lemma csv_body_respects (P : World -> World -> Prop) `{!PreOrder P} (filename : string) :
  (forall s, respects P (write filename s)) ->
  forall c, respects P (csv_body filename c).
Proof.
  intros Hw c. apply respects_bind; [assumption|apply get_ca_same; assumption|intros ca].
  apply respects_bind; [assumption|apply get_neo_same; assumption|intros o]. apply Hw.
Qed.

Lemma json_body_respects (P : World -> World -> Prop) `{!PreOrder P} (c : loc) :
  respects P (json_body c).
Proof.
  apply respects_bind; [assumption|apply get_ca_same; assumption|intros ca].
  apply respects_bind; [assumption|apply get_neo_same; assumption|intros o].
  apply respects_ret; assumption.
Qed.

(** The bodies of the two loops leave the iterable they run over
    alone, as [for_items] takes for granted. *)
Lemma loop_bodies_iterables (filename : string) (c : loc) :
  respects same_iterables (csv_body filename c)
  /\ respects same_iterables (json_body c).
Proof.
  split.
  - apply (csv_body_respects same_iterables filename). intros s w. reflexivity.
  - apply (json_body_respects same_iterables).
Qed.

Lemma write_to_csv_entities (results : loc) (filename : string) :
  respects same_entities (write_to_csv results filename).
Proof.
  unfold write_to_csv.
  apply respects_bind; [apply _|apply open_w_entities|intros _].
  apply respects_bind; [apply _|apply write_entities|intros _].
  apply respects_bind; [apply _| |intros _; apply respects_ret; apply _].
  apply respects_for_in; [apply _|apply put_iter_entities|].
  apply (csv_body_respects same_entities filename), write_entities.
Qed.

Lemma write_to_json_entities (results : loc) (filename : string) :
  respects same_entities (write_to_json results filename).
Proof.
  unfold write_to_json.
  apply respects_bind; [apply _|apply open_w_entities|intros _].
  apply respects_bind; [apply _| |intros data; apply write_entities].
  apply respects_for_in; [apply _|apply put_iter_entities|].
  apply (json_body_respects same_entities).
Qed.

Lemma linked_body_ok (w0 : World) (i : Iterable) (c : loc) (w : World) :
  linked w0 i -> In c (pending i) -> same_entities w0 w ->
  exists ca o, get_ca c w = (Ok ca, w) /\ get_neo (neo ca) w = (Ok o, w).
Proof.
  intros Hl Hin [Hn Hc]. destruct (Hl c Hin) as (ca & l & o & Hca & Hneo & Ho).
  exists ca, o. unfold get_ca, get_neo. rewrite Hc, Hca, Hneo, Hn, Ho. split; reflexivity.
Qed.

Lemma write_to_csv_total (w : World) (results : loc) (filename : string) (i : Iterable) :
  filename ∉ denied w ->
  iter_heap w !! results = Some i ->
  linked w i ->
  fst (write_to_csv results filename w) = Ok tt
  /\ iter_heap (snd (write_to_csv results filename w)) !! results
     = Some (consumed i).
Proof.
  intros Hden Hit Hl. unfold write_to_csv, bind, open_w.
  destruct (decide (filename ∈ denied w)) as [|_]; [contradiction|].
  cbn [write]. unfold for_in. cbn [iter_heap set_files]. rewrite Hit.
  unfold bind. cbn [put_iter].
  match goal with |- context [for_items results ?j (pending i) ?b ?w1] =>
    destruct (for_items_total results b w (pending i)
                (csv_body_respects same_entities filename (write_entities filename))) 
      with (i := j) (w := w1) as (bs & Hbs & Hfin)
  end.
  - intros c w' Hin Hw'. destruct (linked_body_ok w i c w' Hl Hin Hw') as (ca & o & Hca & Ho).
    exists tt. unfold csv_body, bind. rewrite Hca, Ho. reflexivity.
  - split; reflexivity.
  - match type of Hbs with fst ?x = _ => destruct x as [r w2] end.
    cbn [fst snd] in *. subst r. cbn [ret fst snd]. split; [reflexivity|]. exact Hfin.
Qed.

Lemma write_to_json_total (w : World) (results : loc) (filename : string) (i : Iterable) :
  filename ∉ denied w ->
  iter_heap w !! results = Some i ->
  linked w i ->
  fst (write_to_json results filename w) = Ok tt
  /\ iter_heap (snd (write_to_json results filename w)) !! results
     = Some (consumed i).
Proof.
  intros Hden Hit Hl. unfold write_to_json, bind, open_w.
  destruct (decide (filename ∈ denied w)) as [|_]; [contradiction|].
  unfold for_in. cbn [iter_heap set_files]. rewrite Hit.
  unfold bind. cbn [put_iter].
  match goal with |- context [for_items results ?j (pending i) ?b ?w1] =>
    destruct (for_items_total results b w (pending i) (json_body_respects same_entities))
      with (i := j) (w := w1) as (bs & Hbs & Hfin)
  end.
  - intros c w' Hin Hw'. destruct (linked_body_ok w i c w' Hl Hin Hw') as (ca & o & Hca & Ho).
    exists (json_record ca o). unfold json_body, bind. rewrite Hca, Ho. reflexivity.
  - split; reflexivity.
  - match type of Hbs with fst ?x = _ => destruct x as [r w2] end.
    cbn [fst snd] in *. subst r. cbn [write fst snd]. split; [reflexivity|]. exact Hfin.
Qed.

Lemma bind_Ok {A B : Type} (m : M A) (k : A -> M B) (w w' : World) (a : A) :
  m w = (Ok a, w') -> bind m k w = k a w'.
Proof. intros H. unfold bind. now rewrite H. Qed.

Lemma write_to_csv_header (w : World) (results : loc) (filename : string) :
  filename ∉ denied w ->
  exists rest,
    files (snd (write_to_csv results filename w)) !! filename
    = Some (Csv.row_text fieldnames +:+ rest).
Proof.
  intros Hden. unfold write_to_csv.
  erewrite bind_Ok by (unfold open_w; destruct (decide (filename ∈ denied w));
                       [contradiction|reflexivity]).
  erewrite bind_Ok by reflexivity.
  match goal with |- context [snd (?m ?w1)] =>
    assert (Hm : respects (extends_file filename) m); [|apply (Hm w1)]
  end.
  - apply respects_bind; [apply _| |intros _; apply respects_ret; apply _].
    apply respects_for_in; [apply _|intros i; apply put_iter_extends|].
    apply (csv_body_respects (extends_file filename) filename), write_extends.
  - cbn [files set_files]. rewrite !lookup_insert_eq. reflexivity.
Qed.


(** What [write_to_json] writes for the hazardous flag of any object:
    the negation of the attribute. *)
Lemma json_record_hazardous (ca : CloseApproach) (o : NearEarthObject) :
  (let* n := subscript (json_record ca o) "neo" in subscript n "potentially_hazardous")
  = Ok (VBool (negb (truthy (hazardous o)))).
Proof. cbn. destruct (truthy (hazardous o)); reflexivity. Qed.

(** C4: the flag of the structured output is meant to mirror the
    [hazardous] attribute, as the flag of the tabular output does.
    For Eros, which is not hazardous, the row of [write_to_csv] says
    [False] but the record that [write_to_json] writes says [true]. *)
Theorem write_to_json_inverts_hazardous :
  hazardous eros = VBool false
  /\ nth 6 (csv_row eros_approach eros) VNone = VStr "False"
  /\ (let* n := subscript (json_record eros_approach eros) "neo" in
      subscript n "potentially_hazardous") = Ok (VBool true)
  /\ write_to_json 3%positive "neos.json" sample_world
     = (Ok tt,
        {| neo_heap := neo_heap sample_world;
           ca_heap := ca_heap sample_world;
           iter_heap := {[ 3%positive := consumed (mkIterable [2%positive] 0 0) ]};
           files := {[ "neos.json" := Json.dumps (VList [json_record eros_approach eros]) ]};
           denied := ∅ |}).
Proof. repeat split; vm_compute; reflexivity. Qed.

(** C7: [write_to_csv] first writes the header row of the seven
    column names, whatever follows; and for the approach of
    1900-Dec-27 01:30 at distance 0.0924 and velocity 5.57, linked to
    the object 433 named Eros of diameter 16.84 that is not hazardous,
    it writes the row [1900-Dec-27 01:30,0.0924,5.57,433,Eros,16.84,False]. *)
Theorem write_to_csv_header_and_row :
  (forall (w : World) (results : loc) (filename : string),
     filename ∉ denied w ->
     exists rest,
       files (snd (write_to_csv results filename w)) !! filename
       = Some (header_line +:+ rest))
  /\ (forall (ca : CloseApproach) (o : NearEarthObject),
        time ca = mkdatetime 1900 12 27 1 30 0 0 ->
        distance ca = VFloat (PyFloat.of_decimal false 924 (-4)) ->
        velocity ca = VFloat (PyFloat.of_decimal false 557 (-2)) ->
        designation o = VStr "433" ->
        name o = VStr "Eros" ->
        diameter o = VFloat (PyFloat.of_decimal false 1684 (-2)) ->
        hazardous o = VBool false ->
        Csv.row_text (csv_row ca o) = eros_line)
  /\ write_to_csv 3%positive "neos.csv" sample_world
     = (Ok tt,
        {| neo_heap := neo_heap sample_world;
           ca_heap := ca_heap sample_world;
           iter_heap := {[ 3%positive := consumed (mkIterable [2%positive] 0 0) ]};
           files := {[ "neos.csv" := header_line +:+ eros_line ]};
           denied := ∅ |}).
Proof.
  split; [|split].
  - intros w results filename Hden.
    change header_line with (Csv.row_text fieldnames).
    apply write_to_csv_header, Hden.
  - intros ca o Ht Hd Hv Hdes Hn Hdia Hh. unfold csv_row.
    rewrite Ht, Hd, Hv, Hdes, Hn, Hdia, Hh. vm_compute. reflexivity.
  - vm_compute. reflexivity.
Qed.

Lemma write_to_csv_header_and_row_witness :
  ("neos.csv" ∉ denied sample_world)
  /\ (exists rest,
        files (snd (write_to_csv 3%positive "neos.csv" sample_world)) !! "neos.csv"
        = Some (header_line +:+ rest))
  /\ Csv.row_text (csv_row eros_approach eros) = eros_line.
Proof.
  assert (Hden : "neos.csv" ∉ denied sample_world) by (apply not_elem_of_empty).
  split; [exact Hden|]. split.
  - apply (proj1 write_to_csv_header_and_row sample_world 3%positive "neos.csv" Hden).
  - apply (proj1 (proj2 write_to_csv_header_and_row) eros_approach eros); reflexivity.
Defined.

(** C9: for every sequence of linked approaches, [write_to_csv] and
    [write_to_json] leave every approach and every object of the
    store as it was, and consume the iterable exactly once: [iter] is
    called once, and [next] once for every element and once more to
    find the end. *)
Theorem serializers_frame (w : World) (results : loc) (filename : string) (i : Iterable) :
  filename ∉ denied w ->
  iter_heap w !! results = Some i ->
  linked w i ->
  (fst (write_to_csv results filename w) = Ok tt
   /\ neo_heap (snd (write_to_csv results filename w)) = neo_heap w
   /\ ca_heap (snd (write_to_csv results filename w)) = ca_heap w
   /\ iter_heap (snd (write_to_csv results filename w)) !! results = Some (consumed i))
  /\ (fst (write_to_json results filename w) = Ok tt
      /\ neo_heap (snd (write_to_json results filename w)) = neo_heap w
      /\ ca_heap (snd (write_to_json results filename w)) = ca_heap w
      /\ iter_heap (snd (write_to_json results filename w)) !! results = Some (consumed i)).
Proof.
  intros Hden Hit Hl. split.
  - destruct (write_to_csv_total w results filename i Hden Hit Hl) as [Hr Hc].
    destruct (write_to_csv_entities results filename w) as [Hn Hca]. auto.
  - destruct (write_to_json_total w results filename i Hden Hit Hl) as [Hr Hc].
    destruct (write_to_json_entities results filename w) as [Hn Hca]. auto.
Qed.

Lemma sample_world_linked : linked sample_world (mkIterable [2%positive] 0 0).
Proof.
  intros c [<-|[]]. exists eros_approach, 1%positive, eros.
  repeat split; reflexivity.
Defined.

Lemma serializers_frame_witness :
  ("neos.csv" ∉ denied sample_world)
  /\ iter_heap sample_world !! 3%positive = Some (mkIterable [2%positive] 0 0)
  /\ linked sample_world (mkIterable [2%positive] 0 0)
  /\ fst (write_to_csv 3%positive "neos.csv" sample_world) = Ok tt
  /\ neo_heap (snd (write_to_csv 3%positive "neos.csv" sample_world))
     = neo_heap sample_world
  /\ iter_heap (snd (write_to_json 3%positive "neos.csv" sample_world)) !! 3%positive
     = Some (consumed (mkIterable [2%positive] 0 0)).
Proof.
  assert (Hden : "neos.csv" ∉ denied sample_world) by (apply not_elem_of_empty).
  assert (Hit : iter_heap sample_world !! 3%positive = Some (mkIterable [2%positive] 0 0))
    by reflexivity.
  destruct (serializers_frame sample_world 3%positive "neos.csv"
              (mkIterable [2%positive] 0 0) Hden Hit sample_world_linked)
    as [(Hr & Hn & _ & _) (_ & _ & _ & Hc)].
  repeat split; assumption || exact sample_world_linked.
Defined.

(** ** More on the ingestion of the objects *)

Lemma lookup_str_app (k : string) (d d' : pydict) :
  lookup_str k (d ++ d')%list =
  match lookup_str k d with
  | Some v => Some v
  | None => lookup_str k d'
  end.
Proof.
  induction d as [|[k' v] d IH]; simpl; [reflexivity|].
  destruct (eq_str k' k); [reflexivity|exact IH].
Qed.

Lemma lookup_str_Some (k : string) (d : pydict) :
  In (VStr k) (map fst d) -> exists v, lookup_str k d = Some v.
Proof.
  induction d as [|[k' v] d IH]; simpl; [contradiction|].
  intros [E|Hin].
  - subst k'. simpl. rewrite String.eqb_refl. eauto.
  - destruct (eq_str k' k); eauto.
Qed.

Lemma lookup_str_NoDup (k : string) (v : value) (d : pydict) :
  List.NoDup (map fst d) -> In (VStr k, v) d -> lookup_str k d = Some v.
Proof.
  induction d as [|[k' v'] d IH]; simpl; [contradiction|].
  intros Hnd [E|Hin].
  - injection E as -> ->. simpl. now rewrite String.eqb_refl.
  - inversion Hnd as [|? ? Hnotin Hnd']; subst.
    destruct (eq_str k' k) eqn:E.
    + apply eq_str_true in E. subst k'. exfalso. apply Hnotin.
      change (VStr k) with (fst (VStr k, v)). now apply in_map.
    + now apply IH.
Qed.

Lemma fold_left_setitem (l : list string) (d : pydict) :
  fold_left (fun d key => setitem (VStr key) VNone d) l d
  = (rev (map (fun key => (VStr key, VNone)) l) ++ d)%list.
Proof.
  revert d; induction l as [|k l IH]; intros d; simpl; [reflexivity|].
  rewrite IH. unfold setitem. rewrite <- app_assoc. reflexivity.
Qed.

Lemma named_cells_keys (fieldnames row : list string) :
  map fst (named_cells fieldnames row) = map VStr fieldnames.
Proof.
  revert row; induction fieldnames as [|k fn IH]; intros row; simpl; [reflexivity|].
  now rewrite IH.
Qed.

Lemma named_cells_short (fieldnames row : list string) :
  (length row <= length fieldnames)%nat ->
  named_cells fieldnames row
  = (combine (map VStr fieldnames) (map VStr row)
     ++ map (fun key => (VStr key, VNone)) (skipn (length row) fieldnames))%list.
Proof.
  revert row; induction fieldnames as [|k fn IH]; intros [|s row] H; simpl in *;
    try reflexivity; try lia.
  - f_equal. clear IH H. induction fn as [|k' fn IH]; simpl; [reflexivity|].
    f_equal. exact IH.
  - unfold cell; simpl. f_equal. apply IH. lia.
Qed.

Lemma named_cells_long (fieldnames row : list string) :
  (length fieldnames <= length row)%nat ->
  named_cells fieldnames row = combine (map VStr fieldnames) (map VStr row).
Proof.
  revert row; induction fieldnames as [|k fn IH]; intros [|s row] H; simpl in *;
    try reflexivity; try lia.
  unfold cell; simpl. f_equal. apply IH. lia.
Qed.

(** Reading a field of a row of the reader by its name. *)
Lemma row_dict_lookup (k : string) (fieldnames row : list string) :
  lookup_str k (row_dict fieldnames row) = lookup_str k (rev (named_cells fieldnames row)).
Proof.
  unfold row_dict. destruct (length fieldnames <? length row)%nat eqn:E.
  - apply Nat.ltb_lt in E. unfold setitem. simpl.
    rewrite named_cells_long by lia. reflexivity.
  - apply Nat.ltb_ge in E. rewrite fold_left_setitem, named_cells_short by exact E.
    rewrite rev_app_distr. reflexivity.
Qed.

Lemma named_cells_nth (fieldnames row : list string) (i : nat) (k : string) :
  nth_error fieldnames i = Some k -> In (VStr k, cell row i) (named_cells fieldnames row).
Proof.
  revert row i; induction fieldnames as [|k' fn IH]; intros row [|i]; simpl;
    try discriminate.
  - intros [= ->]. left. reflexivity.
  - intros H. right. specialize (IH (tl row) i H).
    replace (cell (tl row) i) with (cell row (S i)) in IH; [exact IH|].
    unfold cell. destruct row; simpl; [destruct i|]; reflexivity.
Qed.

Lemma NoDup_map_VStr (l : list string) : List.NoDup l -> List.NoDup (map VStr l).
Proof.
  induction 1 as [|k l Hnot _ IH]; simpl; constructor; [|exact IH].
  intros (k' & [= ->] & Hin)%in_map_iff. contradiction.
Qed.

Lemma row_dict_column (fieldnames row : list string) (i : nat) (k : string) :
  List.NoDup fieldnames ->
  nth_error fieldnames i = Some k ->
  lookup_str k (row_dict fieldnames row) = Some (cell row i).
Proof.
  intros Hnd Hi. rewrite row_dict_lookup. apply lookup_str_NoDup.
  - rewrite map_rev, named_cells_keys. apply List.NoDup_rev.
    apply NoDup_map_VStr, Hnd.
  - apply in_rev. rewrite rev_involutive. apply named_cells_nth, Hi.
Qed.

Lemma row_dict_named (fieldnames row : list string) (k : string) :
  In k fieldnames -> exists v, lookup_str k (row_dict fieldnames row) = Some v.
Proof.
  intros Hin. rewrite row_dict_lookup. apply lookup_str_Some.
  rewrite map_rev, named_cells_keys. apply in_rev. rewrite rev_involutive.
  now apply in_map.
Qed.

Lemma row_dict_unnamed (fieldnames row : list string) (k : string) :
  ~ In k fieldnames -> lookup_str k (row_dict fieldnames row) = None.
Proof.
  intros Hnot. rewrite row_dict_lookup. apply lookup_str_None.
  intros kv Hin%in_rev E. apply Hnot.
  apply (in_map fst) in Hin. rewrite named_cells_keys, E in Hin.
  apply in_map_iff in Hin as (k' & [= ->] & Hin). exact Hin.
Qed.

(** [normalize], read as one case analysis on the three fields. *)
Lemma normalize_eq (d : pydict) :
  normalize d =
  match lookup_str "pha" d, lookup_str "name" d, lookup_str "diameter" d with
  | None, _, _ => Raise (KeyError "pha")
  | Some _, None, _ => Raise (KeyError "name")
  | Some _, Some _, None => Raise (KeyError "diameter")
  | Some pha, Some nm, Some dia =>
      let d1 := setitem (VStr "pha") (VBool (eq_str pha "Y")) d in
      let d2 := if eq_str nm "" then setitem (VStr "name") VNone d1 else d1 in
      Ok (if eq_str dia "" then setitem (VStr "diameter") (VFloat PyFloat.nan) d2 else d2)
  end.
Proof.
  unfold normalize, getitem.
  destruct (lookup_str "pha" d) as [pha|] eqn:Hpha; cbn [rbind]; [|reflexivity].
  destruct (eq_str pha "Y");
    unfold setitem; cbn [lookup_str eq_str String.eqb Ascii.eqb Bool.eqb];
    (destruct (lookup_str "name" d) as [nm|] eqn:Hnm; cbn [rbind]; [|reflexivity]);
    (destruct (eq_str nm ""); cbn [lookup_str eq_str String.eqb Ascii.eqb Bool.eqb];
     destruct (lookup_str "diameter" d) as [dia|]; cbn [rbind]; reflexivity).
Qed.

(** The object of a row that [normalize] has passed. *)
Lemma neo_of_normalized (d : pydict) (pha nm dia : value) :
  lookup_str "name" d = Some nm -> lookup_str "diameter" d = Some dia ->
  let d1 := setitem (VStr "pha") (VBool (eq_str pha "Y")) d in
  let d2 := if eq_str nm "" then setitem (VStr "name") VNone d1 else d1 in
  neo_of_dict (if eq_str dia "" then setitem (VStr "diameter") (VFloat PyFloat.nan) d2
               else d2)
  = match lookup_str "pdes" d with
    | None => Raise (KeyError "pdes")
    | Some pdes =>
        let* x := (if eq_str dia "" then Ok PyFloat.nan else py_float dia) in
        Ok (new_NearEarthObject pdes (if eq_str nm "" then VNone else nm)
              (VFloat x) (VBool (eq_str pha "Y")))
    end.
Proof.
  intros Hnm Hdia. unfold neo_of_dict, getitem, setitem.
  destruct (eq_str nm "") eqn:Enm, (eq_str dia "") eqn:Edia;
    cbn [lookup_str eq_str String.eqb Ascii.eqb Bool.eqb];
    destruct (lookup_str "pdes" d) as [pdes|]; cbn [rbind]; try reflexivity;
    rewrite ?Hnm, ?Hdia; cbn [rbind py_float]; try reflexivity;
    destruct (py_float dia); reflexivity.
Qed.

Lemma rmap_Ok {A B : Type} (f : A -> result B) (l : list A) :
  Forall (fun x => exists y, f x = Ok y) l -> exists l', rmap f l = Ok l'.
Proof.
  induction 1 as [|x l [y Hy] _ [l' IH]]; simpl; [eauto|].
  rewrite Hy, IH. simpl. eauto.
Qed.

Lemma ingested_loadable (d : pydict) : (exists o, ingested d o) <-> loadable d.
Proof.
  split.
  - intros (o & (pdes & pha & nm & dia & x & H1 & H2 & H3 & H4 & Hx & _)%ingested_inv).
    unfold getitem in *.
    destruct (lookup_str "pdes" d) eqn:E1; [|discriminate].
    destruct (lookup_str "pha" d) eqn:E2; [|discriminate].
    destruct (lookup_str "name" d) eqn:E3; [|discriminate].
    destruct (lookup_str "diameter" d) eqn:E4; [|discriminate].
    injection H1 as ->; injection H2 as ->; injection H3 as ->; injection H4 as ->.
    exists pha, nm, dia, pdes. do 4 (split; [assumption|]).
    destruct (eq_str dia ""); [left; reflexivity|right; eauto].
  - intros (pha & nm & dia & pdes & H1 & H2 & H3 & H4 & Hx).
    assert (Hres : exists x, (if eq_str dia "" then Ok PyFloat.nan else py_float dia) = Ok x).
    { destruct Hx as [->|[x Hx]]; [eauto|]. destruct (eq_str dia ""); eauto. }
    destruct Hres as [x Hres].
    exists (new_NearEarthObject pdes (if eq_str nm "" then VNone else nm)
              (VFloat x) (VBool (eq_str pha "Y"))).
    unfold ingested. rewrite normalize_eq, H1, H2, H3.
    eexists. split; [reflexivity|].
    rewrite (neo_of_normalized d pha nm dia H2 H3), H4, Hres. reflexivity.
Qed.

(** X1: [load_neos] returns objects exactly when every row that the
    reader yields has the four fields [pha], [name], [diameter] and
    [pdes] and a diameter that is blank or converts to a float; a
    field that the row does not reach counts as present, with the
    value [None]. *)
Theorem load_neos_succeeds_iff (rows : list (list string)) :
  (exists neos, load_neos rows = Ok neos) <-> Forall loadable (DictReader rows).
Proof.
  split.
  - intros [neos H%load_neos_ingested].
    induction H as [|d o ds neos Hd _ IH]; constructor; [|exact IH].
    apply ingested_loadable; eauto.
  - intros H. unfold load_neos.
    assert (Hn : exists ds, rmap normalize (DictReader rows) = Ok ds
                            /\ Forall (fun d' => exists o, neo_of_dict d' = Ok o) ds).
    { induction H as [|d ds Hd _ (ds' & IH1 & IH2)]; simpl; [eauto|].
      apply ingested_loadable in Hd as (o & d' & Hd' & Ho).
      rewrite Hd', IH1. simpl. eexists; split; [reflexivity|]. constructor; eauto. }
    destruct Hn as (ds & -> & Hds). simpl. apply rmap_Ok, Hds.
Qed.

Lemma load_neos_succeeds_iff_witness :
  Forall loadable (DictReader sample_rows)
  /\ exists neos, load_neos sample_rows = Ok neos.
Proof.
  assert (H : Forall loadable (DictReader sample_rows)).
  { apply (proj1 (load_neos_succeeds_iff sample_rows)).
    exists [eros; nameless]. vm_compute; reflexivity. }
  split; [exact H|].
  apply (proj2 (load_neos_succeeds_iff sample_rows) H).
Defined.

Lemma DictReader_data_rows (rows : list (list string)) :
  DictReader rows = map (row_dict (hd [] rows)) (data_rows rows).
Proof. destruct rows; reflexivity. Qed.

Lemma Forall2_map_l {A B C : Type} (f : A -> B) (R : B -> C -> Prop)
    (l : list A) (l' : list C) :
  Forall2 R (map f l) l' -> Forall2 (fun x y => R (f x) y) l l'.
Proof.
  revert l'; induction l as [|x l IH]; intros l' H; inversion H; subst; constructor; auto.
Qed.

(** X2: [load_neos] returns the empty list exactly when the file has
    no data row that is not blank, whatever its header: an empty file,
    a header alone, or a header followed by blank lines only. *)
Theorem load_neos_empty_iff (rows : list (list string)) :
  load_neos rows = Ok [] <-> data_rows rows = [].
Proof.
  split.
  - intros H%load_neos_ingested. rewrite DictReader_data_rows in H.
    destruct (data_rows rows); [reflexivity|inversion H].
  - intros H. unfold load_neos. rewrite DictReader_data_rows, H. reflexivity.
Qed.

Lemma load_neos_empty_iff_witness :
  data_rows [["pdes"; "name"]; []; []] = []
  /\ load_neos [["pdes"; "name"]; []; []] = Ok [].
Proof.
  split; [reflexivity|].
  apply (proj2 (load_neos_empty_iff [["pdes"; "name"]; []; []])). reflexivity.
Defined.

(** X3: when the header lacks one of the four columns and there is
    a data row, [load_neos] raises [KeyError] for the first column
    that is missing, in the order [pha], [name], [diameter],
    [pdes]. *)
Theorem load_neos_missing_column (rows : list (list string)) (k : string) :
  data_rows rows <> [] ->
  first_missing (hd [] rows) = Some k ->
  load_neos rows = Raise (KeyError k).
Proof.
  intros Hrows Hk. unfold load_neos. rewrite DictReader_data_rows.
  destruct (data_rows rows) as [|r rs]; [contradiction|]. clear Hrows.
  set (fn := hd [] rows) in *.
  assert (Hex : forall c, existsb (String.eqb c) fn = true -> In c fn).
  { intros c (c' & Hin & ->%String.eqb_eq)%existsb_exists. exact Hin. }
  assert (Hnex : forall c, existsb (String.eqb c) fn = false -> ~ In c fn).
  { intros c E Hin. apply Bool.not_true_iff_false in E. apply E.
    apply existsb_exists. exists c. split; [exact Hin|apply String.eqb_refl]. }
  unfold first_missing, columns in Hk. cbn [find] in Hk. cbn [map rmap].
  destruct (existsb (String.eqb "pha") fn) eqn:Epha; cbn [negb] in Hk.
  2:{ injection Hk as <-. rewrite normalize_eq, (row_dict_unnamed fn r "pha") by auto.
      reflexivity. }
  destruct (row_dict_named fn r "pha" (Hex _ Epha)) as [pha Hpha].
  destruct (existsb (String.eqb "name") fn) eqn:Ename; cbn [negb] in Hk.
  2:{ injection Hk as <-.
      rewrite normalize_eq, Hpha, (row_dict_unnamed fn r "name") by auto. reflexivity. }
  destruct (row_dict_named fn r "name" (Hex _ Ename)) as [nm Hnm].
  destruct (existsb (String.eqb "diameter") fn) eqn:Edia; cbn [negb] in Hk.
  2:{ injection Hk as <-.
      rewrite normalize_eq, Hpha, Hnm, (row_dict_unnamed fn r "diameter") by auto.
      reflexivity. }
  destruct (row_dict_named fn r "diameter" (Hex _ Edia)) as [dia Hdia].
  destruct (existsb (String.eqb "pdes") fn) eqn:Epdes; cbn [negb] in Hk; [discriminate|].
  injection Hk as <-.
  rewrite normalize_eq, Hpha, Hnm, Hdia. cbn [rbind].
  destruct (rmap_Ok normalize (map (row_dict fn) rs)) as [ds ->].
  { apply List.Forall_forall. intros d (r' & <- & _)%in_map_iff. rewrite normalize_eq.
    destruct (row_dict_named fn r' "pha" (Hex _ Epha)) as [? ->].
    destruct (row_dict_named fn r' "name" (Hex _ Ename)) as [? ->].
    destruct (row_dict_named fn r' "diameter" (Hex _ Edia)) as [? ->]. eauto. }
  cbn [rbind rmap].
  rewrite (neo_of_normalized _ pha nm dia Hnm Hdia),
    (row_dict_unnamed fn r "pdes") by auto.
  reflexivity.
Qed.

Lemma load_neos_missing_column_witness :
  data_rows [["pdes"; "pha"; "diameter"]; ["433"; "N"; "16.84"]] <> []
  /\ first_missing ["pdes"; "pha"; "diameter"] = Some "name"
  /\ load_neos [["pdes"; "pha"; "diameter"]; ["433"; "N"; "16.84"]]
     = Raise (KeyError "name").
Proof.
  assert (H : data_rows [["pdes"; "pha"; "diameter"]; ["433"; "N"; "16.84"]] <> [])
    by discriminate.
  split; [exact H|]. split; [reflexivity|].
  apply (load_neos_missing_column
           [["pdes"; "pha"; "diameter"]; ["433"; "N"; "16.84"]] "name" H).
  reflexivity.
Defined.

(** X4: under a header without repeated names, the object of a data
    row is made of the cells of that row: the designation is the cell
    under [pdes], the name the cell under [name] unless that is blank,
    the diameter [float] of the cell under [diameter] unless that is
    blank, the flag whether the cell under [pha] is [Y]; a cell past
    the end of the row is [None]; the object has no excess info and
    no approaches yet; there is one object per data row, in the order
    of the file. *)
Theorem load_neos_columns (fieldnames : list string) (data : list (list string))
    (neos : list NearEarthObject) (i_pdes i_name i_diameter i_pha : nat) :
  List.NoDup fieldnames ->
  nth_error fieldnames i_pdes = Some "pdes" ->
  nth_error fieldnames i_name = Some "name" ->
  nth_error fieldnames i_diameter = Some "diameter" ->
  nth_error fieldnames i_pha = Some "pha" ->
  load_neos (fieldnames :: data) = Ok neos ->
  Forall2 (fun row o =>
             designation o = cell row i_pdes
             /\ name o = (if eq_str (cell row i_name) "" then VNone else cell row i_name)
             /\ (exists x, diameter o = VFloat x
                           /\ if eq_str (cell row i_diameter) "" then x = PyFloat.nan
                              else py_float (cell row i_diameter) = Ok x)
             /\ hazardous o = VBool (eq_str (cell row i_pha) "Y")
             /\ info o = [] /\ approaches o = [])
          (data_rows (fieldnames :: data)) neos.
Proof.
  intros Hnd Hpdes Hname Hdia Hpha H%load_neos_ingested.
  rewrite DictReader_data_rows in H. apply Forall2_map_l in H. cbn [hd] in H.
  eapply Forall2_impl; [exact H|]. cbv beta.
  intros row o (pdes & pha & nm & dia & x & H1 & H2 & H3 & H4 & Hx & ->)%ingested_inv.
  unfold getitem in H1, H2, H3, H4.
  rewrite (row_dict_column fieldnames row _ _ Hnd Hpdes) in H1.
  rewrite (row_dict_column fieldnames row _ _ Hnd Hpha) in H2.
  rewrite (row_dict_column fieldnames row _ _ Hnd Hname) in H3.
  rewrite (row_dict_column fieldnames row _ _ Hnd Hdia) in H4.
  injection H1 as <-; injection H2 as <-; injection H3 as <-; injection H4 as <-.
  cbn [designation name diameter hazardous info approaches new_NearEarthObject].
  repeat split; eauto.
Qed.

Lemma load_neos_columns_witness :
  List.NoDup ["pdes"; "name"; "diameter"; "pha"]
  /\ load_neos sample_rows = Ok [eros; nameless]
  /\ Forall2 (fun row o => designation o = cell row 0 /\ approaches o = [])
             (data_rows sample_rows) [eros; nameless].
Proof.
  assert (Hnd : List.NoDup ["pdes"; "name"; "diameter"; "pha"]).
  { repeat constructor; simpl; intros H;
      repeat (destruct H as [H|H]; [discriminate H|]); exact H. }
  assert (Hl : load_neos sample_rows = Ok [eros; nameless])
    by (vm_compute; reflexivity).
  split; [exact Hnd|]. split; [exact Hl|].
  eapply Forall2_impl.
  - apply (load_neos_columns ["pdes"; "name"; "diameter"; "pha"]
             [["433"; "Eros"; "16.84"; "N"]; ["2020 AB"; ""; ""; "Y"]]
             [eros; nameless] 0 1 2 3 Hnd eq_refl eq_refl eq_refl eq_refl Hl).
  - cbv beta. intros row o (H1 & _ & _ & _ & _ & H6). split; assumption.
Defined.

(** ** More on the ingestion of the approaches *)

Lemma approach_of_dict_inv (d : pydict) (ca : CloseApproach) :
  approach_of_dict d = Ok ca ->
  exists cd dist v_rel des t x y,
    getitem "cd" d = Ok cd /\ getitem "dist" d = Ok dist
    /\ getitem "v_rel" d = Ok v_rel /\ getitem "des" d = Ok des
    /\ cd_to_datetime cd = Ok t /\ py_float dist = Ok x /\ py_float v_rel = Ok y
    /\ ca = {| _designation := des; time := t; distance := VFloat x;
               velocity := VFloat y; ca_info := []; neo := None |}.
Proof.
  unfold approach_of_dict, new_CloseApproach.
  destruct (getitem "cd" d) as [cd|]; cbn [rbind]; [|discriminate].
  destruct (getitem "dist" d) as [dist|]; cbn [rbind]; [|discriminate].
  destruct (py_float dist) as [x|] eqn:Hx; cbn [rbind]; [|discriminate].
  destruct (getitem "v_rel" d) as [v_rel|]; cbn [rbind]; [|discriminate].
  destruct (py_float v_rel) as [y|] eqn:Hy; cbn [rbind]; [|discriminate].
  destruct (getitem "des" d) as [des|]; cbn [rbind]; [|discriminate].
  destruct (cd_to_datetime cd) as [t|] eqn:Ht; cbn [rbind]; [|discriminate].
  intros [= <-]. exists cd, dist, v_rel, des, t, x, y. auto 10.
Qed.

Lemma load_approaches_inv (content : value) (cas : list CloseApproach) :
  load_approaches content = Ok cas ->
  exists fields data rows,
    subscript content "fields" = Ok fields
    /\ subscript content "data" = Ok data
    /\ iterate data = Ok rows
    /\ Forall2 (loaded fields) rows cas.
Proof.
  unfold load_approaches.
  destruct (subscript content "fields") as [fields|] eqn:Hf; cbn [rbind]; [|discriminate].
  destruct (subscript content "data") as [data|] eqn:Hd; cbn [rbind]; [|discriminate].
  destruct (iterate data) as [rows|] eqn:Hi; cbn [rbind]; [|discriminate].
  destruct (rmap (zip_dict fields) rows) as [ds|] eqn:Hz; cbn [rbind]; [|discriminate].
  intros H. exists fields, data, rows. do 3 (split; [first [reflexivity|assumption]|]).
  apply rmap_Forall2 in Hz, H. revert cas H.
  clear Hi. induction Hz as [|row d rows ds Hrow _ IH]; intros cas H; inversion H; subst;
    constructor; auto.
  match goal with Hca : approach_of_dict ?d' = Ok _ |- _ =>
    apply approach_of_dict_inv in Hca
      as (cd & dist & v_rel & des & t & fx & fy & ? & ? & ? & ? & ? & ? & ? & ->);
    exists d', cd, dist, v_rel, des, t, fx, fy; auto 12
  end.
Qed.

(** X5: what [load_approaches] returns has one approach per data
    row, in order, built from the values that the row gives for [cd],
    [dist], [v_rel] and [des]; each approach is unlinked ([neo] is
    [None]), has no excess info, and has floats for its distance and
    velocity. *)
Theorem load_approaches_records (content : value) (cas : list CloseApproach) :
  load_approaches content = Ok cas ->
  (exists fields data rows,
     subscript content "fields" = Ok fields
     /\ subscript content "data" = Ok data
     /\ iterate data = Ok rows
     /\ Forall2 (loaded fields) rows cas)
  /\ Forall (fun ca => neo ca = None /\ ca_info ca = []
                       /\ (exists x, distance ca = VFloat x)
                       /\ (exists y, velocity ca = VFloat y)) cas.
Proof.
  intros H. pose proof (load_approaches_inv content cas H) as Hinv.
  split; [exact Hinv|].
  destruct Hinv as (fields & data & rows & _ & _ & _ & HF).
  clear H. induction HF as [|row ca rows cas Hl _ IH]; [constructor|].
  constructor; [|exact IH].
  destruct Hl as (d & cd & dist & v_rel & des & t & x & y & _ & _ & _ & _ & _ & _ & _ & _ & ->).
  cbn. repeat split; eauto.
Qed.

Lemma load_approaches_records_witness :
  (exists ca, load_approaches (document sample_fields [long_row]) = Ok [ca])
  /\ exists ca, load_approaches (document sample_fields [long_row]) = Ok [ca]
                /\ Forall (fun ca => neo ca = None) [ca].
Proof.
  assert (H : load_approaches (document sample_fields [long_row])
              = Ok [{| _designation := VStr "433";
                       time := mkdatetime 1900 12 27 1 30 0 0;
                       distance := VFloat (PyFloat.of_decimal false 924 (-4));
                       velocity := VFloat (PyFloat.of_decimal false 557 (-2));
                       ca_info := [];
                       neo := None |}]) by (vm_compute; reflexivity).
  split; [eexists; exact H|]. eexists. split; [exact H|].
  eapply Forall_impl; [apply (proj2 (load_approaches_records _ _ H))|].
  cbv beta. intros ca (Hn & _). exact Hn.
Defined.

(** X6: [load_approaches] returns the empty list exactly when the
    document has the two entries and its data iterate to nothing;
    the field names are not looked at then. *)
Theorem load_approaches_empty_iff (content : value) :
  load_approaches content = Ok [] <->
  exists fields data,
    subscript content "fields" = Ok fields
    /\ subscript content "data" = Ok data
    /\ iterate data = Ok [].
Proof.
  split.
  - intros (fields & data & rows & Hf & Hd & Hi & HF)%load_approaches_inv.
    inversion HF; subst. eauto.
  - intros (fields & data & Hf & Hd & Hi). unfold load_approaches.
    rewrite Hf, Hd. cbn [rbind]. rewrite Hi. reflexivity.
Qed.

Lemma load_approaches_empty_iff_witness :
  (exists fields data,
     subscript (document (VInt 7) []) "fields" = Ok fields
     /\ subscript (document (VInt 7) []) "data" = Ok data
     /\ iterate data = Ok [])
  /\ load_approaches (document (VInt 7) []) = Ok [].
Proof.
  assert (H : exists fields data,
                subscript (document (VInt 7) []) "fields" = Ok fields
                /\ subscript (document (VInt 7) []) "data" = Ok data
                /\ iterate data = Ok []).
  { exists (VInt 7), (VList []). repeat split; reflexivity. }
  split; [exact H|].
  apply (proj2 (load_approaches_empty_iff (document (VInt 7) [])) H).
Defined.

(** X7: a document that is not an object makes [load_approaches]
    raise [TypeError]; an object without [fields] makes it raise
    [KeyError] for [fields], and an object with [fields] but without
    [data] [KeyError] for [data]. *)
Theorem load_approaches_document (content : value) :
  ((forall d, content <> VDict d) -> load_approaches content = Raise TypeError)
  /\ (forall d,
        content = VDict d ->
        find (fun kv => String.eqb (fst kv) "fields") d = None ->
        load_approaches content = Raise (KeyError "fields"))
  /\ (forall d fields,
        content = VDict d ->
        find (fun kv => String.eqb (fst kv) "fields") d = Some fields ->
        find (fun kv => String.eqb (fst kv) "data") d = None ->
        load_approaches content = Raise (KeyError "data")).
Proof.
  split; [|split].
  - intros H. destruct content; try reflexivity. exfalso. eapply H. reflexivity.
  - intros d -> H. unfold load_approaches, subscript. rewrite H. reflexivity.
  - intros d fields -> Hf Hd. unfold load_approaches, subscript. rewrite Hf, Hd.
    reflexivity.
Qed.

Lemma load_approaches_document_witness :
  (forall d, VList [] <> VDict d)
  /\ load_approaches (VList []) = Raise TypeError
  /\ load_approaches (VDict [("fields", sample_fields)]) = Raise (KeyError "data").
Proof.
  assert (H : forall d, VList [] <> VDict d) by discriminate.
  split; [exact H|]. split.
  - apply (proj1 (load_approaches_document (VList [])) H).
  - apply (proj2 (proj2 (load_approaches_document (VDict [("fields", sample_fields)])))
             [("fields", sample_fields)] ("fields", sample_fields));
      reflexivity.
Defined.

Lemma lookup_str_In (k : string) (v : value) (d : pydict) :
  lookup_str k d = Some v -> In (VStr k, v) d.
Proof.
  induction d as [|[k' v'] d IH]; simpl; [discriminate|].
  destruct (eq_str k' k) eqn:E.
  - apply eq_str_true in E. intros [= ->]. left. now subst.
  - auto.
Qed.

Lemma lookup_str_None_inv (k : string) (d : pydict) :
  lookup_str k d = None -> forall kv, In kv d -> fst kv <> VStr k.
Proof.
  induction d as [|[k' v'] d IH]; simpl; [intros _ kv []|].
  destruct (eq_str k' k) eqn:E; [discriminate|].
  intros H kv [<-|Hin]; [|auto].
  simpl. intros ->. simpl in E. now rewrite String.eqb_refl in E.
Qed.

Lemma lookup_str_Permutation (k : string) (d d' : pydict) :
  Permutation d d' -> List.NoDup (map fst d) -> lookup_str k d = lookup_str k d'.
Proof.
  intros Hp Hnd. destruct (lookup_str k d) as [v|] eqn:E; symmetry.
  - apply lookup_str_NoDup.
    + eapply Permutation_NoDup; [apply Permutation_map, Hp|exact Hnd].
    + eapply Permutation_in; [exact Hp|]. apply lookup_str_In, E.
  - apply lookup_str_None. intros kv Hin. apply (lookup_str_None_inv k d E).
    eapply Permutation_in; [symmetry; exact Hp|exact Hin].
Qed.

Lemma approach_of_dict_ext (d d' : pydict) :
  (forall k, lookup_str k d = lookup_str k d') ->
  approach_of_dict d = approach_of_dict d'.
Proof. intros H. unfold approach_of_dict, getitem. now rewrite !H. Qed.

Lemma zip_names_values (kvs : list (string * value)) :
  zip_dict (names_of kvs) (values_of kvs)
  = Ok (rev (map (fun kv => (VStr (fst kv), snd kv)) kvs)).
Proof.
  unfold zip_dict, names_of, values_of. cbn [iterate rbind].
  assert (E : combine (map (fun kv : string * value => VStr (fst kv)) kvs) (map snd kvs)
              = map (fun kv => (VStr (fst kv), snd kv)) kvs).
  { induction kvs as [|kv kvs IH]; simpl; [reflexivity|]. now rewrite IH. }
  rewrite E. clear E.
  assert (Hh : forallb (fun kv : value * value => hashable (fst kv))
                 (map (fun kv : string * value => (VStr (fst kv), snd kv)) kvs) = true).
  { induction kvs as [|kv kvs IH]; simpl; [reflexivity|exact IH]. }
  now rewrite Hh.
Qed.

(** X8: the values of a row are read by field name, not by
    position: with field names that are all different, reordering
    the names and the values of a row together changes nothing of
    what is built from it, approach or exception. *)
Theorem approach_field_order (kvs kvs' : list (string * value)) :
  Permutation kvs kvs' ->
  List.NoDup (map fst kvs) ->
  rbind (zip_dict (names_of kvs) (values_of kvs)) approach_of_dict
  = rbind (zip_dict (names_of kvs') (values_of kvs')) approach_of_dict.
Proof.
  intros Hp Hnd. rewrite !zip_names_values. cbn [rbind].
  apply approach_of_dict_ext. intros k. apply lookup_str_Permutation.
  - rewrite <- !Permutation_rev. apply Permutation_map, Hp.
  - rewrite map_rev, map_map. cbn [fst]. apply List.NoDup_rev.
    rewrite <- (map_map fst VStr). apply NoDup_map_VStr, Hnd.
Qed.

Lemma approach_field_order_witness :
  Permutation [("des", VStr "433"); ("cd", VStr "1900-Dec-27 01:30")]
              [("cd", VStr "1900-Dec-27 01:30"); ("des", VStr "433")]
  /\ List.NoDup (map fst [("des", VStr "433"); ("cd", VStr "1900-Dec-27 01:30")])
  /\ rbind (zip_dict (names_of [("des", VStr "433"); ("cd", VStr "1900-Dec-27 01:30")])
                     (values_of [("des", VStr "433"); ("cd", VStr "1900-Dec-27 01:30")]))
           approach_of_dict
     = rbind (zip_dict (names_of [("cd", VStr "1900-Dec-27 01:30"); ("des", VStr "433")])
                       (values_of [("cd", VStr "1900-Dec-27 01:30"); ("des", VStr "433")]))
             approach_of_dict.
Proof.
  assert (Hp : Permutation [("des", VStr "433"); ("cd", VStr "1900-Dec-27 01:30")]
                           [("cd", VStr "1900-Dec-27 01:30"); ("des", VStr "433")])
    by apply perm_swap.
  assert (Hnd : List.NoDup (map fst [("des", VStr "433");
                                     ("cd", VStr "1900-Dec-27 01:30")])).
  { repeat constructor; simpl; intros H;
      repeat (destruct H as [H|H]; [discriminate H|]); exact H. }
  split; [exact Hp|]. split; [exact Hnd|].
  apply (approach_field_order _ _ Hp Hnd).
Defined.

(** ** The display forms *)

Lemma ingested_diameter (rows : list (list string)) (neos : list NearEarthObject)
    (o : NearEarthObject) :
  load_neos rows = Ok neos -> In o neos -> exists x, diameter o = VFloat x.
Proof.
  intros H%load_neos_ingested Hin.
  destruct (Forall2_In_r _ _ _ _ H Hin) as (d & _ & Hd).
  apply ingested_inv in Hd as (pdes & pha & nm & dia & x & _ & _ & _ & _ & _ & ->).
  cbn. eauto.
Qed.

(** X9: [fullname] never returns: it raises [AttributeError] when
    designation and name are both texts, from the assignment to the
    property itself, and [TypeError] from the concatenation
    otherwise. *)
Theorem fullname_always_raises (o : NearEarthObject) :
  (forall v, fullname o <> Ok v)
  /\ (fullname o = Raise AttributeError \/ fullname o = Raise TypeError)
  /\ (fullname o = Raise AttributeError
      <-> exists d n, designation o = VStr d /\ name o = VStr n).
Proof.
  unfold fullname, fullname_value, py_add.
  destruct (designation o) as [| | | |d| |]; cbn [rbind];
    try (split; [discriminate|]; split; [auto|];
         split; [discriminate|intros (? & ? & [=] & _)]).
  destruct (name o) as [| | | |n| |]; cbn [rbind];
    try (split; [discriminate|]; split; [auto|];
         split; [discriminate|intros (? & ? & _ & [=])]).
  split; [discriminate|]. split; [auto|]. split; eauto.
Qed.

Lemma fullname_always_raises_witness :
  (exists d n, designation eros = VStr d /\ name eros = VStr n)
  /\ fullname eros = Raise AttributeError.
Proof.
  assert (H : exists d n, designation eros = VStr d /\ name eros = VStr n).
  { exists "433", "Eros". split; reflexivity. }
  split; [exact H|].
  apply (proj2 (proj2 (proj2 (fullname_always_raises eros))) H).
Defined.

(** X10: for every object that [load_neos] returns, [__str__] and
    [__repr__] return their text, with the diameter in fixed point
    with three digits. *)
Theorem NearEarthObject_display_ingested (rows : list (list string))
    (neos : list NearEarthObject) (o : NearEarthObject) :
  load_neos rows = Ok neos ->
  In o neos ->
  exists x,
    diameter o = VFloat x
    /\ NearEarthObject__str__ o
       = Ok ("A NearEarthObject named " +:+ py_str (name o)
             +:+ " with a diameter=" +:+ PyFormat.fixed 3 x
             +:+ " moves to " +:+ py_str (designation o)
             +:+ " and is "
             +:+ (if truthy (hazardous o) then "hazardous." else "not hazardous."))
    /\ NearEarthObject__repr__ o
       = Ok ("NearEarthObject(designation=" +:+ py_repr (designation o)
             +:+ ", name=" +:+ py_repr (name o)
             +:+ ", diameter=" +:+ PyFormat.fixed 3 x
             +:+ ", hazardous=" +:+ py_repr (hazardous o) +:+ ")").
Proof.
  intros H Hin. destruct (ingested_diameter rows neos o H Hin) as [x Hx].
  exists x. unfold NearEarthObject__str__, NearEarthObject__repr__.
  rewrite Hx. repeat split; reflexivity.
Qed.

Lemma NearEarthObject_display_ingested_witness :
  load_neos sample_rows = Ok [eros; nameless]
  /\ In nameless [eros; nameless]
  /\ exists x, diameter nameless = VFloat x
               /\ NearEarthObject__str__ nameless
                  = Ok ("A NearEarthObject named None with a diameter="
                        +:+ PyFormat.fixed 3 x +:+ " moves to 2020 AB and is hazardous.").
Proof.
  assert (H : load_neos sample_rows = Ok [eros; nameless]) by (vm_compute; reflexivity).
  assert (Hin : In nameless [eros; nameless]) by (simpl; auto).
  split; [exact H|]. split; [exact Hin|].
  destruct (NearEarthObject_display_ingested sample_rows [eros; nameless] nameless H Hin)
    as (x & Hx & Hs & _).
  exists x. split; [exact Hx|]. rewrite Hs. reflexivity.
Defined.

(** X11: for an object whose diameter is [None], [__str__] and
    [__repr__] raise [TypeError], and so does [__repr__] of an
    approach linked to it, while the serializers write an empty cell
    and the text [NaN] for it. *)
Theorem display_None_diameter (o : NearEarthObject) :
  diameter o = VNone ->
  NearEarthObject__str__ o = Raise TypeError
  /\ NearEarthObject__repr__ o = Raise TypeError
  /\ forall ca : CloseApproach,
       nth 5 (csv_row ca o) VNone = VStr ""
       /\ (let* n := subscript (json_record ca o) "neo" in subscript n "diameter_km")
          = Ok (VStr "NaN")
       /\ exists e, CloseApproach__repr__ ca (Some o) = Raise e.
Proof.
  intros H. unfold NearEarthObject__str__, NearEarthObject__repr__. rewrite H.
  split; [reflexivity|]. split; [reflexivity|]. intros ca.
  split; [cbn; now rewrite H|]. split; [cbn; now rewrite H|].
  unfold CloseApproach__repr__, repr_neo, NearEarthObject__repr__. rewrite H.
  destruct (PyFormat.format_f 2 (distance ca)); cbn [rbind]; [|eauto].
  destruct (PyFormat.format_f 2 (velocity ca)); cbn [rbind]; eauto.
Qed.

Lemma display_None_diameter_witness :
  diameter (new_NearEarthObject (VStr "433") VNone VNone (VBool false)) = VNone
  /\ NearEarthObject__str__ (new_NearEarthObject (VStr "433") VNone VNone (VBool false))
     = Raise TypeError.
Proof.
  split; [reflexivity|].
  apply (display_None_diameter
           (new_NearEarthObject (VStr "433") VNone VNone (VBool false)) eq_refl).
Defined.

(** X12: for every approach that [load_approaches] returns,
    [__str__] returns its text with distance and velocity in fixed
    point with two digits, and [__repr__] returns its text both
    while the approach is unlinked, ending in [neo=None], and once
    it is linked to an object that [load_neos] returned, with the
    [__repr__] of that object inside. *)
Theorem CloseApproach_display_loaded (content : value) (cas : list CloseApproach)
    (ca : CloseApproach) :
  load_approaches content = Ok cas ->
  In ca cas ->
  exists x y,
    distance ca = VFloat x /\ velocity ca = VFloat y
    /\ CloseApproach__str__ ca
       = Ok ("A CloseApproach with designation '" +:+ py_str (_designation ca)
             +:+ "' approaches Earth at a distance of " +:+ PyFormat.fixed 2 x
             +:+ " au and a velocity of " +:+ PyFormat.fixed 2 y
             +:+ " km/s at " +:+ time_str ca +:+ " UTC.")
    /\ CloseApproach__repr__ ca None
       = Ok ("CloseApproach(time=" +:+ PyStr.repr (time_str ca)
             +:+ ", distance=" +:+ PyFormat.fixed 2 x
             +:+ ", velocity=" +:+ PyFormat.fixed 2 y
             +:+ ", neo=" +:+ "None" +:+ ")")
    /\ forall rows neos o,
         load_neos rows = Ok neos -> In o neos ->
         exists r,
           NearEarthObject__repr__ o = Ok r
           /\ CloseApproach__repr__ ca (Some o)
              = Ok ("CloseApproach(time=" +:+ PyStr.repr (time_str ca)
                    +:+ ", distance=" +:+ PyFormat.fixed 2 x
                    +:+ ", velocity=" +:+ PyFormat.fixed 2 y
                    +:+ ", neo=" +:+ r +:+ ")").
Proof.
  intros (fields & data & rows & _ & _ & _ & HF)%load_approaches_inv Hin.
  destruct (Forall2_In_r _ _ _ _ HF Hin) as (row & _ & Hl).
  destruct Hl as (d & cd & dist & v_rel & des & t & x & y & _ & _ & _ & _ & _ & _ & _ & _ & ->).
  exists x, y. split; [reflexivity|]. split; [reflexivity|].
  split; [reflexivity|]. split; [reflexivity|].
  intros rows' neos o H Ho. destruct (ingested_diameter rows' neos o H Ho) as [z Hz].
  unfold CloseApproach__repr__, repr_neo, NearEarthObject__repr__. rewrite Hz.
  cbn [distance velocity PyFormat.format_f rbind]. eexists. split; reflexivity.
Qed.

Lemma CloseApproach_display_loaded_witness :
  exists ca,
    load_approaches (document sample_fields [long_row]) = Ok [ca]
    /\ In ca [ca]
    /\ exists x y, distance ca = VFloat x /\ velocity ca = VFloat y.
Proof.
  eexists. 
  assert (H : load_approaches (document sample_fields [long_row])
              = Ok [{| _designation := VStr "433";
                       time := mkdatetime 1900 12 27 1 30 0 0;
                       distance := VFloat (PyFloat.of_decimal false 924 (-4));
                       velocity := VFloat (PyFloat.of_decimal false 557 (-2));
                       ca_info := [];
                       neo := None |}]) by (vm_compute; reflexivity).
  split; [exact H|]. split; [left; reflexivity|].
  destruct (CloseApproach_display_loaded _ _ _ H (or_introl eq_refl))
    as (x & y & Hx & Hy & _).
  exists x, y. split; assumption.
Defined.

(** ** More on the serializers *)

#[local] Instance same_files_preorder : PreOrder same_files.
Proof.
  split; [intros w; reflexivity|].
  intros w1 w2 w3 H1 H2. unfold same_files in *. congruence.
Qed.

#[local] Instance untouched_preorder (filename : string) :
  PreOrder (untouched filename).
Proof.
  split.
  - intros w. repeat split; reflexivity.
  - intros w1 w2 w3 (H1 & H2 & H3 & H4) (H5 & H6 & H7 & H8).
    repeat split; try congruence. intros f Hf. rewrite (H8 f Hf). apply H4, Hf.
Qed.

(** The body of either loop on an approach that is linked. *)
Lemma bodies_resolved (w : World) (c : loc) (e : CloseApproach * NearEarthObject)
    (filename : string) :
  resolved w c e ->
  csv_body filename c w = write filename (Csv.row_text (csv_row (fst e) (snd e))) w
  /\ json_body c w = (Ok (json_record (fst e) (snd e)), w).
Proof.
  intros (Hca & l & Hneo & Ho). unfold csv_body, json_body, bind, get_ca, get_neo.
  rewrite Hca, Hneo, Ho. split; reflexivity.
Qed.

(** The body of either loop on what is not a linked approach. *)
Lemma bodies_unresolved (w : World) (c : loc) (filename : string) :
  (forall e, ~ resolved w c e) ->
  csv_body filename c w = (Raise AttributeError, w)
  /\ json_body c w = (Raise AttributeError, w).
Proof.
  intros H. unfold csv_body, json_body, bind, get_ca, get_neo.
  destruct (ca_heap w !! c) as [ca|] eqn:Hca; [|split; reflexivity].
  destruct (neo ca) as [l|] eqn:Hneo; [|split; reflexivity].
  destruct (neo_heap w !! l) as [o|] eqn:Ho; [|split; reflexivity].
  exfalso. apply (H (ca, o)). split; [exact Hca|]. exists l. auto.
Qed.

Lemma world_eq (w : World) :
  w = {| neo_heap := neo_heap w; ca_heap := ca_heap w; iter_heap := iter_heap w;
         files := files w; denied := denied w |}.
Proof. destruct w; reflexivity. Qed.

(** The loop of [write_to_csv], from a world in which the file holds
    [t]: over the approaches [pre], all linked, and then to the end
    or to an element that is not a linked approach. *)
Lemma for_items_csv (filename : string) (it : loc) (pre : list loc) :
  forall (es : list (CloseApproach * NearEarthObject)) (stop : option (loc * list loc))
         (i : Iterable) (w : World) (t : string),
    Forall2 (resolved w) pre es ->
    stops_at w stop ->
    files w !! filename = Some t ->
    for_items it i (pre ++ tail_of stop)%list (csv_body filename) w
    = (outcome stop (map (fun _ => tt) es),
       {| neo_heap := neo_heap w; ca_heap := ca_heap w;
          iter_heap := <[it := {| pending := left_of stop; iter_calls := iter_calls i;
                                  next_calls := (next_calls i + length pre + 1)%nat |}]>
                         (iter_heap w);
          files := <[filename := t +:+ csv_rows es]> (files w);
          denied := denied w |}).
Proof.
  induction pre as [|c0 pre IH]; intros es stop i w t HF Hstop Ht;
    inversion HF as [|? e ? es' He HF']; subst.
  - unfold csv_rows; cbn [map fold_right]. rewrite append_nil_r, (insert_id _ _ _ Ht).
    destruct stop as [[c post]|]; cbn [app tail_of left_of outcome for_items].
    + unfold bind at 1. cbn [put_iter].
      match goal with |- context [bind (csv_body filename c) ?k ?w1] =>
        destruct (bodies_unresolved w1 c filename Hstop) as [Hb _];
        unfold bind; rewrite Hb
      end.
      unfold set_iter_heap, after_next. cbn [length neo_heap ca_heap iter_heap files denied].
      do 4 f_equal. lia.
    + unfold bind, put_iter, ret, set_iter_heap, after_next.
      cbn [length]. do 4 f_equal. lia.
  - cbn [app for_items]. unfold bind at 1. cbn [put_iter].
    set (i1 := after_next i (pre ++ tail_of stop)%list).
    set (w1 := set_iter_heap (<[it:=i1]> (iter_heap w)) w).
    assert (He1 : resolved w1 c0 e) by exact He.
    destruct (bodies_resolved w1 c0 e filename He1) as [Hb _].
    set (w2 := set_files (<[filename := t +:+ Csv.row_text (csv_row (fst e) (snd e))]>
                            (files w1)) w1).
    assert (Hb2 : csv_body filename c0 w1 = (Ok tt, w2)).
    { rewrite Hb. unfold write, w2. cbn [files set_iter_heap w1] in *. rewrite Ht.
      reflexivity. }
    assert (HF2 : Forall2 (resolved w2) pre es') by exact HF'.
    assert (Hstop2 : stops_at w2 stop) by exact Hstop.
    assert (Ht2 : files w2 !! filename
                  = Some (t +:+ Csv.row_text (csv_row (fst e) (snd e))))
      by apply lookup_insert_eq.
    pose proof (IH es' stop i1 w2 _ HF2 Hstop2 Ht2) as IH1.
    assert (Hfin :
      {| neo_heap := neo_heap w2; ca_heap := ca_heap w2;
         iter_heap := <[it := {| pending := left_of stop; iter_calls := iter_calls i1;
                                 next_calls := (next_calls i1 + length pre + 1)%nat |}]>
                        (iter_heap w2);
         files := <[filename := (t +:+ Csv.row_text (csv_row (fst e) (snd e)))
                                +:+ csv_rows es']> (files w2);
         denied := denied w2 |}
      = {| neo_heap := neo_heap w; ca_heap := ca_heap w;
           iter_heap := <[it := {| pending := left_of stop; iter_calls := iter_calls i;
                                   next_calls := (next_calls i + length (c0 :: pre) + 1)%nat |}]>
                          (iter_heap w);
           files := <[filename := t +:+ csv_rows (e :: es')]> (files w);
           denied := denied w |}).
    { unfold w2, w1, i1, set_files, set_iter_heap, after_next.
      cbn [neo_heap ca_heap iter_heap files denied iter_calls next_calls length].
      rewrite !insert_insert_eq, append_assoc. unfold csv_rows; cbn [map fold_right].
      do 3 f_equal; lia. }
    clearbody w2 w1 i1.
    unfold bind at 1. rewrite Hb2. unfold bind at 1. rewrite IH1, Hfin.
    destruct stop as [[c post]|]; reflexivity.
Qed.

(** The loop of [write_to_json], likewise; it leaves the file alone. *)
Lemma for_items_json (it : loc) (pre : list loc) :
  forall (es : list (CloseApproach * NearEarthObject)) (stop : option (loc * list loc))
         (i : Iterable) (w : World),
    Forall2 (resolved w) pre es ->
    stops_at w stop ->
    for_items it i (pre ++ tail_of stop)%list json_body w
    = (outcome stop (json_records es),
       {| neo_heap := neo_heap w; ca_heap := ca_heap w;
          iter_heap := <[it := {| pending := left_of stop; iter_calls := iter_calls i;
                                  next_calls := (next_calls i + length pre + 1)%nat |}]>
                         (iter_heap w);
          files := files w;
          denied := denied w |}).
Proof.
  induction pre as [|c0 pre IH]; intros es stop i w HF Hstop;
    inversion HF as [|? e ? es' He HF']; subst.
  - destruct stop as [[c post]|]; cbn [app tail_of left_of outcome for_items].
    + unfold bind at 1. cbn [put_iter].
      match goal with |- context [bind (json_body c) ?k ?w1] =>
        destruct (bodies_unresolved w1 c "" Hstop) as [_ Hb];
        unfold bind; rewrite Hb
      end.
      unfold set_iter_heap, after_next. cbn [length neo_heap ca_heap iter_heap files denied].
      do 4 f_equal. lia.
    + unfold bind, put_iter, ret, set_iter_heap, after_next.
      cbn [length json_records map]. do 4 f_equal. lia.
  - cbn [app for_items]. unfold bind at 1. cbn [put_iter].
    set (i1 := after_next i (pre ++ tail_of stop)%list).
    set (w1 := set_iter_heap (<[it:=i1]> (iter_heap w)) w).
    assert (He1 : resolved w1 c0 e) by exact He.
    destruct (bodies_resolved w1 c0 e "" He1) as [_ Hb].
    assert (HF1 : Forall2 (resolved w1) pre es') by exact HF'.
    assert (Hstop1 : stops_at w1 stop) by exact Hstop.
    pose proof (IH es' stop i1 w1 HF1 Hstop1) as IH1.
    assert (Hfin :
      {| neo_heap := neo_heap w1; ca_heap := ca_heap w1;
         iter_heap := <[it := {| pending := left_of stop; iter_calls := iter_calls i1;
                                 next_calls := (next_calls i1 + length pre + 1)%nat |}]>
                        (iter_heap w1);
         files := files w1;
         denied := denied w1 |}
      = {| neo_heap := neo_heap w; ca_heap := ca_heap w;
           iter_heap := <[it := {| pending := left_of stop; iter_calls := iter_calls i;
                                   next_calls := (next_calls i + length (c0 :: pre) + 1)%nat |}]>
                          (iter_heap w);
           files := files w;
           denied := denied w |}).
    { unfold w1, i1, set_iter_heap, after_next.
      cbn [neo_heap ca_heap iter_heap files denied iter_calls next_calls length].
      rewrite !insert_insert_eq. do 3 f_equal; lia. }
    clearbody w1 i1.
    unfold bind at 1. rewrite Hb. unfold bind at 1. rewrite IH1, Hfin.
    destruct stop as [[c post]|]; reflexivity.
Qed.

Lemma write_to_csv_run (w : World) (results : loc) (filename : string) (i : Iterable)
    (pre : list loc) (es : list (CloseApproach * NearEarthObject))
    (stop : option (loc * list loc)) :
  filename ∉ denied w ->
  iter_heap w !! results = Some i ->
  pending i = (pre ++ tail_of stop)%list ->
  Forall2 (resolved w) pre es ->
  stops_at w stop ->
  write_to_csv results filename w
  = (outcome stop tt,
     {| neo_heap := neo_heap w; ca_heap := ca_heap w;
        iter_heap := <[results := {| pending := left_of stop;
                                     iter_calls := S (iter_calls i);
                                     next_calls := (next_calls i + length pre + 1)%nat |}]>
                       (iter_heap w);
        files := <[filename := Csv.row_text fieldnames +:+ csv_rows es]> (files w);
        denied := denied w |}).
Proof.
  intros Hden Hit Hp HF Hstop.
  unfold write_to_csv, bind at 1, open_w.
  destruct (decide (filename ∈ denied w)) as [|_]; [contradiction|].
  unfold bind at 1. cbn [write]. unfold bind at 1, for_in.
  cbn [iter_heap set_files]. rewrite Hit, Hp. unfold bind at 1. cbn [put_iter].
  match goal with |- context [for_items results ?j _ _ ?w1] =>
    rewrite (for_items_csv filename results pre es stop j w1 (Csv.row_text fieldnames))
  end.
  - cbn [set_files set_iter_heap neo_heap ca_heap iter_heap files denied
         iter_calls next_calls].
    rewrite !insert_insert_eq. destruct stop as [[c post]|]; reflexivity.
  - exact HF.
  - exact Hstop.
  - cbn [set_files set_iter_heap files]. rewrite !lookup_insert_eq. reflexivity.
Qed.

Lemma write_to_json_run (w : World) (results : loc) (filename : string) (i : Iterable)
    (pre : list loc) (es : list (CloseApproach * NearEarthObject))
    (stop : option (loc * list loc)) :
  filename ∉ denied w ->
  iter_heap w !! results = Some i ->
  pending i = (pre ++ tail_of stop)%list ->
  Forall2 (resolved w) pre es ->
  stops_at w stop ->
  write_to_json results filename w
  = (outcome stop tt,
     {| neo_heap := neo_heap w; ca_heap := ca_heap w;
        iter_heap := <[results := {| pending := left_of stop;
                                     iter_calls := S (iter_calls i);
                                     next_calls := (next_calls i + length pre + 1)%nat |}]>
                       (iter_heap w);
        files := <[filename := match stop with
                               | None => Json.dumps (VList (json_records es))
                               | Some _ => ""
                               end]> (files w);
        denied := denied w |}).
Proof.
  intros Hden Hit Hp HF Hstop.
  unfold write_to_json, bind at 1, open_w.
  destruct (decide (filename ∈ denied w)) as [|_]; [contradiction|].
  unfold bind at 1, for_in.
  cbn [iter_heap set_files]. rewrite Hit, Hp. unfold bind at 1. cbn [put_iter].
  match goal with |- context [for_items results ?j _ _ ?w1] =>
    rewrite (for_items_json results pre es stop j w1)
  end.
  - cbn [set_files set_iter_heap neo_heap ca_heap iter_heap files denied
         iter_calls next_calls].
    rewrite !insert_insert_eq. destruct stop as [[c post]|]; cbn [outcome write].
    + reflexivity.
    + unfold write. cbn [set_files neo_heap ca_heap iter_heap files denied].
      rewrite lookup_insert_eq, insert_insert_eq. reflexivity.
  - exact HF.
  - exact Hstop.
Qed.

Lemma sample_world_resolved :
  Forall2 (resolved sample_world) [2%positive] [(eros_approach, eros)].
Proof.
  constructor; [|constructor]. split; [reflexivity|].
  exists 1%positive. split; reflexivity.
Defined.

Lemma stray_world_resolved :
  Forall2 (resolved stray_world) [2%positive] [(eros_approach, eros)].
Proof.
  constructor; [|constructor]. split; [reflexivity|].
  exists 1%positive. split; reflexivity.
Defined.

Lemma stray_world_unresolved (e : CloseApproach * NearEarthObject) :
  ~ resolved stray_world 4%positive e.
Proof.
  destruct e as [ca o]. intros (Hca & l & Hneo & _). cbn [fst snd] in *.
  vm_compute in Hca. injection Hca as <-. discriminate Hneo.
Defined.

(** X13: on a sequence of linked approaches [write_to_csv] replaces
    whatever the file held by the header row and one row per
    approach, in the order of the sequence, changes nothing else of
    the store, and leaves the iterable exhausted. *)
Theorem write_to_csv_writes_all (w : World) (results : loc) (filename : string)
    (i : Iterable) (es : list (CloseApproach * NearEarthObject)) :
  filename ∉ denied w ->
  iter_heap w !! results = Some i ->
  Forall2 (resolved w) (pending i) es ->
  write_to_csv results filename w
  = (Ok tt,
     {| neo_heap := neo_heap w; ca_heap := ca_heap w;
        iter_heap := <[results := consumed i]> (iter_heap w);
        files := <[filename := header_line +:+ csv_rows es]> (files w);
        denied := denied w |}).
Proof.
  intros Hden Hit HF.
  apply (write_to_csv_run w results filename i (pending i) es None Hden Hit);
    [symmetry; apply app_nil_r|exact HF|exact I].
Qed.

Lemma write_to_csv_writes_all_witness :
  ("neos.csv" ∉ denied sample_world)
  /\ iter_heap sample_world !! 3%positive = Some (mkIterable [2%positive] 0 0)
  /\ Forall2 (resolved sample_world) [2%positive] [(eros_approach, eros)]
  /\ fst (write_to_csv 3%positive "neos.csv" sample_world) = Ok tt.
Proof.
  assert (Hden : "neos.csv" ∉ denied sample_world) by (apply not_elem_of_empty).
  assert (Hit : iter_heap sample_world !! 3%positive = Some (mkIterable [2%positive] 0 0))
    by reflexivity.
  split; [exact Hden|]. split; [exact Hit|]. split; [exact sample_world_resolved|].
  rewrite (write_to_csv_writes_all sample_world 3%positive "neos.csv"
             (mkIterable [2%positive] 0 0) [(eros_approach, eros)]
             Hden Hit sample_world_resolved).
  reflexivity.
Defined.

(** X14: on a sequence of linked approaches [write_to_json]
    replaces whatever the file held by the encoding of the list of
    their records, in the order of the sequence, changes nothing else
    of the store, and leaves the iterable exhausted. *)
Theorem write_to_json_writes_all (w : World) (results : loc) (filename : string)
    (i : Iterable) (es : list (CloseApproach * NearEarthObject)) :
  filename ∉ denied w ->
  iter_heap w !! results = Some i ->
  Forall2 (resolved w) (pending i) es ->
  write_to_json results filename w
  = (Ok tt,
     {| neo_heap := neo_heap w; ca_heap := ca_heap w;
        iter_heap := <[results := consumed i]> (iter_heap w);
        files := <[filename := Json.dumps (VList (json_records es))]> (files w);
        denied := denied w |}).
Proof.
  intros Hden Hit HF.
  apply (write_to_json_run w results filename i (pending i) es None Hden Hit);
    [symmetry; apply app_nil_r|exact HF|exact I].
Qed.

Lemma write_to_json_writes_all_witness :
  ("neos.json" ∉ denied sample_world)
  /\ iter_heap sample_world !! 3%positive = Some (mkIterable [2%positive] 0 0)
  /\ Forall2 (resolved sample_world) [2%positive] [(eros_approach, eros)]
  /\ fst (write_to_json 3%positive "neos.json" sample_world) = Ok tt.
Proof.
  assert (Hden : "neos.json" ∉ denied sample_world) by (apply not_elem_of_empty).
  assert (Hit : iter_heap sample_world !! 3%positive = Some (mkIterable [2%positive] 0 0))
    by reflexivity.
  split; [exact Hden|]. split; [exact Hit|]. split; [exact sample_world_resolved|].
  rewrite (write_to_json_writes_all sample_world 3%positive "neos.json"
             (mkIterable [2%positive] 0 0) [(eros_approach, eros)]
             Hden Hit sample_world_resolved).
  reflexivity.
Defined.

(** X15: when the sequence reaches an element that is not a linked
    approach, [write_to_csv] raises [AttributeError] and leaves a
    partial file: the header row and the rows of the approaches
    before that element; the elements after it were not taken from
    the iterable. *)
Theorem write_to_csv_partial (w : World) (results : loc) (filename : string)
    (i : Iterable) (pre post : list loc) (c : loc)
    (es : list (CloseApproach * NearEarthObject)) :
  filename ∉ denied w ->
  iter_heap w !! results = Some i ->
  pending i = (pre ++ c :: post)%list ->
  Forall2 (resolved w) pre es ->
  (forall e, ~ resolved w c e) ->
  write_to_csv results filename w
  = (Raise AttributeError,
     {| neo_heap := neo_heap w; ca_heap := ca_heap w;
        iter_heap := <[results := {| pending := post;
                                     iter_calls := S (iter_calls i);
                                     next_calls := (next_calls i + length pre + 1)%nat |}]>
                       (iter_heap w);
        files := <[filename := header_line +:+ csv_rows es]> (files w);
        denied := denied w |}).
Proof.
  intros Hden Hit Hp HF Hc.
  exact (write_to_csv_run w results filename i pre es (Some (c, post)) Hden Hit Hp HF Hc).
Qed.

Lemma write_to_csv_partial_witness :
  ("neos.csv" ∉ denied stray_world)
  /\ fst (write_to_csv 3%positive "neos.csv" stray_world) = Raise AttributeError
  /\ files (snd (write_to_csv 3%positive "neos.csv" stray_world)) !! "neos.csv"
     = Some (header_line +:+ eros_line).
Proof.
  assert (Hden : "neos.csv" ∉ denied stray_world).
  { unfold stray_world; cbn [denied]. intros H%elem_of_singleton. discriminate H. }
  split; [exact Hden|].
  rewrite (write_to_csv_partial stray_world 3%positive "neos.csv"
             (mkIterable [2%positive; 4%positive; 2%positive] 0 0)
             [2%positive] [2%positive] 4%positive [(eros_approach, eros)]
             Hden eq_refl eq_refl stray_world_resolved stray_world_unresolved).
  split; [reflexivity|]. vm_compute. reflexivity.
Defined.

Lemma for_in_json_files (results : loc) : respects same_files (for_in results json_body).
Proof.
  apply respects_for_in; [apply _|intros i w; reflexivity|].
  apply (json_body_respects same_files).
Qed.

(** X16: [write_to_json] writes all or nothing: once the file is
    open, it ends either normally with the encoding of a list in the
    file, or with an exception and the file empty. *)
Theorem write_to_json_all_or_nothing (w : World) (results : loc) (filename : string) :
  filename ∉ denied w ->
  (exists data,
     fst (write_to_json results filename w) = Ok tt
     /\ files (snd (write_to_json results filename w))
        = <[filename := Json.dumps (VList data)]> (files w))
  \/ (exists e,
        fst (write_to_json results filename w) = Raise e
        /\ files (snd (write_to_json results filename w)) = <[filename := ""]> (files w)).
Proof.
  intros Hden. unfold write_to_json.
  erewrite bind_Ok by (unfold open_w; destruct (decide (filename ∈ denied w));
                       [contradiction|reflexivity]).
  set (w1 := set_files (<[filename:=""]> (files w)) w).
  pose proof (for_in_json_files results w1) as Hsame. unfold same_files in Hsame.
  unfold bind. destruct (for_in results json_body w1) as [[data|e] w2]; cbn [snd] in Hsame.
  - left. exists data. split; [reflexivity|]. unfold write. cbn [snd set_files files].
    rewrite Hsame. unfold w1. cbn [files set_files].
    rewrite lookup_insert_eq. apply insert_insert_eq.
  - right. exists e. split; [reflexivity|]. exact Hsame.
Qed.

Lemma write_to_json_all_or_nothing_witness :
  ("neos.csv" ∉ denied stray_world)
  /\ fst (write_to_json 3%positive "neos.csv" stray_world) = Raise AttributeError
  /\ files (snd (write_to_json 3%positive "neos.csv" stray_world)) !! "neos.csv" = Some "".
Proof.
  assert (Hden : "neos.csv" ∉ denied stray_world).
  { unfold stray_world; cbn [denied]. intros H%elem_of_singleton. discriminate H. }
  split; [exact Hden|].
  destruct (write_to_json_all_or_nothing stray_world 3%positive "neos.csv" Hden)
    as [(data & Hr & _)|(e & Hr & Hf)].
  - vm_compute in Hr. discriminate Hr.
  - split; [vm_compute; reflexivity|]. rewrite Hf. apply lookup_insert_eq.
Defined.

(** X17: when the file cannot be opened, both serializers raise
    [OSError] before anything else happens: no file is changed and
    nothing is taken from the iterable. *)
Theorem serializers_open_denied (w : World) (results : loc) (filename : string) :
  filename ∈ denied w ->
  write_to_csv results filename w = (Raise OSError, w)
  /\ write_to_json results filename w = (Raise OSError, w).
Proof.
  intros Hden. unfold write_to_csv, write_to_json, bind, open_w.
  destruct (decide (filename ∈ denied w)); [split; reflexivity|contradiction].
Qed.

Lemma serializers_open_denied_witness :
  ("locked.csv" ∈ denied stray_world)
  /\ write_to_csv 3%positive "locked.csv" stray_world = (Raise OSError, stray_world).
Proof.
  assert (Hden : "locked.csv" ∈ denied stray_world).
  { unfold stray_world; cbn [denied]. apply elem_of_singleton. reflexivity. }
  split; [exact Hden|].
  apply (serializers_open_denied stray_world 3%positive "locked.csv" Hden).
Defined.

Lemma open_w_untouched (filename : string) :
  respects (untouched filename) (open_w filename).
Proof.
  intros w. unfold open_w. destruct (decide _); [reflexivity|].
  repeat split; try reflexivity. intros f Hf.
  cbn [snd set_files files]. now apply lookup_insert_ne.
Qed.

Lemma write_untouched (filename s : string) :
  respects (untouched filename) (write filename s).
Proof.
  intros w. repeat split; try reflexivity. intros f Hf.
  cbn [write snd set_files files]. now apply lookup_insert_ne.
Qed.

Lemma put_iter_untouched (filename : string) (it : loc) (i : Iterable) :
  respects (untouched filename) (put_iter it i).
Proof. intros w. repeat split; reflexivity. Qed.

(** X18: whatever they are given and however they end, the two
    serializers change no entity, no permission and no file but the
    one they are asked to write. *)
Theorem serializers_touch_one_file (w : World) (results : loc) (filename : string) :
  untouched filename w (snd (write_to_csv results filename w))
  /\ untouched filename w (snd (write_to_json results filename w)).
Proof.
  split.
  - revert w. change (respects (untouched filename) (write_to_csv results filename)).
    unfold write_to_csv.
    apply respects_bind; [apply _|apply open_w_untouched|intros _].
    apply respects_bind; [apply _|apply write_untouched|intros _].
    apply respects_bind; [apply _| |intros _; apply respects_ret; apply _].
    apply respects_for_in; [apply _|apply put_iter_untouched|].
    apply (csv_body_respects (untouched filename) filename), write_untouched.
  - revert w. change (respects (untouched filename) (write_to_json results filename)).
    unfold write_to_json.
    apply respects_bind; [apply _|apply open_w_untouched|intros _].
    apply respects_bind; [apply _| |intros data; apply write_untouched].
    apply respects_for_in; [apply _|apply put_iter_untouched|].
    apply (json_body_respects (untouched filename)).
Qed.

(** X19: an object ingested from a row with a blank diameter is
    written with the cell [nan] by [write_to_csv] and with the number
    [NaN] by [write_to_json]: neither takes its branch for an absent
    diameter. *)
Theorem blank_diameter_serialized (rows : list (list string))
    (neos : list NearEarthObject) :
  load_neos rows = Ok neos ->
  Forall2 (fun d o =>
             getitem "diameter" d = Ok (VStr "") ->
             forall ca : CloseApproach,
               Csv.field (nth 5 (csv_row ca o) VNone) = "nan"
               /\ (let* n := subscript (json_record ca o) "neo" in
                   let* x := subscript n "diameter_km" in
                   Ok (Json.encode 2 x)) = Ok "NaN")
          (DictReader rows) neos.
Proof.
  intros H%load_neos_ingested.
  eapply Forall2_impl; [exact H|]. cbv beta.
  intros d o (pdes & pha & nm & dia & x & _ & _ & _ & Hdia & Hx & ->)%ingested_inv.
  rewrite Hdia. intros [= ->] ca. cbn in Hx. subst x. split; reflexivity.
Qed.

Lemma blank_diameter_serialized_witness :
  load_neos sample_rows = Ok [eros; nameless]
  /\ Forall2 (fun d o =>
                getitem "diameter" d = Ok (VStr "") ->
                forall ca : CloseApproach,
                  Csv.field (nth 5 (csv_row ca o) VNone) = "nan"
                  /\ (let* n := subscript (json_record ca o) "neo" in
                      let* x := subscript n "diameter_km" in
                      Ok (Json.encode 2 x)) = Ok "NaN")
             (DictReader sample_rows) [eros; nameless].
Proof.
  split; [vm_compute; reflexivity|].
  apply (blank_diameter_serialized sample_rows [eros; nameless]).
  vm_compute; reflexivity.
Defined.
